(** * GitZoom, [tools/plot_performance.py]: a shallow embedding

    The script reads a JSON baseline, draws one horizontal bar per record
    and saves the chart next to the input.  It is embedded here as a
    program in a small state-and-exception monad over an explicit world
    (argument vector, file system, JSON decoder), together with the parts
    of the Python runtime it calls: [pathlib.PurePosixPath], the numeric
    tower (int / binary64 float), [max], [format(v, '.0f')], [print],
    [sys.exit], and the matplotlib calls recorded on a figure. *)

From Stdlib Require Import ZArith List String Ascii Bool Lia.
From Stdlib Require Import Decimal DecimalString DecimalPos.
From Stdlib Require Import SpecFloat.
Import ListNotations.

Set Warnings "-register-all".

Local Open Scope string_scope.
Local Open Scope Z_scope.

(* ================================================================= *)
(** ** Python [str] helpers *)

Module PyStr.

(** [s.split(sep)] for a one-character separator: never returns the
    empty list, [''.split('/') = ['']]. *)
Fixpoint split (sep : ascii) (s : string) : list string :=
  match s with
  | EmptyString => [EmptyString]
  | String c s' =>
      if Ascii.eqb c sep then EmptyString :: split sep s'
      else match split sep s' with
           | [] => [String c EmptyString]
           | h :: t => String c h :: t
           end
  end.

(** [sep.join(l)] *)
Fixpoint join (sep : ascii) (l : list string) : string :=
  match l with
  | [] => EmptyString
  | [x] => x
  | x :: rest => x ++ String sep (join sep rest)
  end.

(** [s.rfind(c)]: index of the last occurrence of [c], [-1] if none. *)
Fixpoint rfind (c : ascii) (s : string) : Z :=
  match s with
  | EmptyString => -1
  | String a s' =>
      let r := rfind c s' in
      if 0 <=? r then r + 1
      else if Ascii.eqb a c then 0 else -1
  end.

(** [s[:n]] and [s[n:]] for [0 <= n]. *)
Fixpoint take (n : nat) (s : string) : string :=
  match n, s with
  | S n', String a s' => String a (take n' s')
  | _, _ => EmptyString
  end.

Fixpoint drop (n : nat) (s : string) : string :=
  match n, s with
  | S n', String _ s' => drop n' s'
  | _, _ => s
  end.

Definition len (s : string) : Z := Z.of_nat (String.length s).

(** [c in s] *)
Fixpoint mem (c : ascii) (s : string) : bool :=
  match s with
  | EmptyString => false
  | String a s' => Ascii.eqb a c || mem c s'
  end.

(** [s.startswith(c)], [s.endswith(c)] for one character. *)
Definition startswith (c : ascii) (s : string) : bool :=
  match s with
  | String a _ => Ascii.eqb a c
  | EmptyString => false
  end.

Fixpoint endswith (c : ascii) (s : string) : bool :=
  match s with
  | EmptyString => false
  | String a EmptyString => Ascii.eqb a c
  | String _ s' => endswith c s'
  end.

End PyStr.

(* ================================================================= *)
(** ** [pathlib.PurePosixPath] *)

Module Pathlib.

Definition sep : ascii := "/"%char.
Definition dot : ascii := "."%char.

(** A parsed path: [root] is [""], ["/"] or ["//"]; [tail] holds the
    components after the root. *)
Record PurePath : Type := mkPath { root : string; tail : list string }.

(** [posixpath.splitroot] (the drive is always empty on POSIX):
    [if p[:1] != sep: '', p]
    [elif p[1:2] != sep or p[2:3] == sep: sep, p[1:]]
    [else: p[:2], p[2:]] -- exactly two leading slashes are kept. *)
Definition splitroot (p : string) : string * string :=
  if negb (PyStr.startswith sep p) then ("", p)
  else if negb (PyStr.startswith sep (PyStr.drop 1 p))
          || PyStr.startswith sep (PyStr.drop 2 p)
       then ("/", PyStr.drop 1 p)
       else (PyStr.take 2 p, PyStr.drop 2 p).

(** The filter of [_parse_path]: [x and x != '.'] *)
Definition keep_part (x : string) : bool :=
  negb (String.eqb x "") && negb (String.eqb x ".").

(** [PurePath._parse_path] *)
Definition parse_path (path : string) : PurePath :=
  match path with
  | EmptyString => mkPath "" []
  | _ =>
      let '(rt, rel) := splitroot path in
      mkPath rt (filter keep_part (PyStr.split sep rel))
  end.

(** [Path(s)] *)
Definition Path (s : string) : PurePath := parse_path s.

(** [PurePath._format_parsed_parts] *)
Definition format_parsed_parts (p : PurePath) : string :=
  root p ++ PyStr.join sep (tail p).

(** [str(p)]: [_format_parsed_parts(...) or '.'] *)
Definition str (p : PurePath) : string :=
  match format_parsed_parts p with
  | EmptyString => "."
  | s => s
  end.

(** [p.name] *)
Definition name (p : PurePath) : string := last (tail p) "".

(** [p.parent] *)
Definition parent (p : PurePath) : PurePath :=
  match tail p with
  | [] => p
  | _ => mkPath (root p) (removelast (tail p))
  end.

(** The test shared by [stem] and [suffix]:
    [i = name.rfind('.')], [0 < i < len(name) - 1]. *)
Definition has_suffix (nm : string) : bool :=
  let i := PyStr.rfind dot nm in
  (0 <? i) && (i <? PyStr.len nm - 1).

(** [p.suffix] *)
Definition suffix (p : PurePath) : string :=
  let nm := name p in
  if has_suffix nm then PyStr.drop (Z.to_nat (PyStr.rfind dot nm)) nm
  else "".

(** [p.stem] *)
Definition stem (p : PurePath) : string :=
  let nm := name p in
  if has_suffix nm then PyStr.take (Z.to_nat (PyStr.rfind dot nm)) nm
  else nm.

(** [posixpath.join(a, b)] *)
Definition posix_join (a b : string) : string :=
  if PyStr.startswith sep b then b
  else if String.eqb a "" || PyStr.endswith sep a then a ++ b
  else a ++ String sep b.

(** [p / key]: [with_segments(p, key)] joins the raw path of [p] with
    [key] and parses the result again. *)
Definition joinpath (p : PurePath) (key : string) : PurePath :=
  parse_path (posix_join (format_parsed_parts p) key).

(** Parsed paths satisfy this: no empty, ["."] or slash-carrying
    component, and one of the three POSIX roots. *)
Definition part_ok (x : string) : Prop :=
  x <> "" /\ x <> "." /\ PyStr.mem sep x = false.

Definition wf (p : PurePath) : Prop :=
  (root p = "" \/ root p = "/" \/ root p = "//") /\ Forall part_ok (tail p).

End Pathlib.

(** Line 27 of the script: [out = p.parent / ('plot-' + p.stem + '.png')] *)
Definition out_name (p : Pathlib.PurePath) : string :=
  "plot-" ++ Pathlib.stem p ++ ".png".

Definition out_path (p : Pathlib.PurePath) : Pathlib.PurePath :=
  Pathlib.joinpath (Pathlib.parent p) (out_name p).


(* ================================================================= *)
(** ** Python values, exceptions and the numeric tower *)

Module Py.

(** What [json.loads] can return. A [dict] is kept as an association
    list in insertion order; the decoder leaves no duplicate keys. *)
Inductive value : Type :=
| VNone
| VBool (b : bool)
| VInt (z : Z)
| VFloat (f : spec_float)
| VStr (s : string)
| VList (l : list value)
| VDict (d : list (string * value)).

(** The exceptions the script can meet. [JSONDecodeError] and
    [UnicodeDecodeError] are subclasses of [ValueError] in Python; they
    are kept apart here, so [ValueError] is the one [max] raises. *)
Inductive exn : Type :=
| IsADirectoryError
| OSError
| UnicodeDecodeError
| JSONDecodeError
| KeyError (key : string)
| TypeError
| ValueError
| OverflowError.

(** Result of evaluating an expression. *)
Inductive res (A : Type) : Type :=
| Ok (a : A)
| Raise (e : exn).
Arguments Ok {A} a.
Arguments Raise {A} e.

Definition bind {A B} (r : res A) (k : A -> res B) : res B :=
  match r with
  | Ok a => k a
  | Raise e => Raise e
  end.

(** *** binary64 *)

Definition prec : Z := 53.
Definition emax : Z := 1024.

(** The literal [0.01]: [float.hex(0.01) = 0x1.47ae147ae147bp-7]. *)
Definition one_percent : spec_float :=
  S754_finite false 5764607523034235 (-59).

(** [float(z)] for an [int]: round to nearest even, [OverflowError]
    when the result does not fit. *)
Definition float_of_int (z : Z) : res spec_float :=
  match binary_normalize prec emax z 0 false with
  | S754_infinity _ => Raise OverflowError
  | f => Ok f
  end.

(** *** Numbers: [bool] is a subclass of [int] *)

Inductive num : Type :=
| NInt (z : Z)
| NFloat (f : spec_float).

Definition num_of (v : value) : option num :=
  match v with
  | VBool b => Some (NInt (if b then 1 else 0))
  | VInt z => Some (NInt z)
  | VFloat f => Some (NFloat f)
  | _ => None
  end.

Definition to_float (n : num) : res spec_float :=
  match n with
  | NInt z => float_of_int z
  | NFloat f => Ok f
  end.

(** [__mul__] and [__add__] on numbers: int with int stays int, a
    float operand converts the other one. *)
Definition num_mul (a b : num) : res num :=
  match a, b with
  | NInt x, NInt y => Ok (NInt (x * y))
  | _, _ =>
      bind (to_float a) (fun fa =>
      bind (to_float b) (fun fb => Ok (NFloat (SFmul prec emax fa fb))))
  end.

Definition num_add (a b : num) : res num :=
  match a, b with
  | NInt x, NInt y => Ok (NInt (x + y))
  | _, _ =>
      bind (to_float a) (fun fa =>
      bind (to_float b) (fun fb => Ok (NFloat (SFadd prec emax fa fb))))
  end.

(** Comparison of an [int] with a [float] is exact in CPython. *)
Definition compare_int_float (z : Z) (f : spec_float) : option comparison :=
  match f with
  | S754_nan => None
  | S754_infinity s => Some (if s then Gt else Lt)
  | S754_zero _ => Some (z ?= 0)
  | S754_finite s m e =>
      let sm := cond_Zopp s (Zpos m) in
      Some (if 0 <=? e then z ?= sm * 2 ^ e else z * 2 ^ (- e) ?= sm)
  end.

Definition num_compare (a b : num) : option comparison :=
  match a, b with
  | NInt x, NInt y => Some (x ?= y)
  | NFloat x, NFloat y => SFcompare x y
  | NInt x, NFloat y => compare_int_float x y
  | NFloat x, NInt y => option_map CompOpp (compare_int_float y x)
  end.

(** [a > b] *)
Definition num_gt (a b : num) : bool :=
  match num_compare a b with
  | Some Gt => true
  | _ => false
  end.

(** [a * b], [a + b], [a > b] on values.  On operands that are not
    numbers the script's only uses end in [TypeError]: a comparison of
    two strings or two lists would succeed in Python, and the
    multiplication by [0.01] that follows raises it. *)
Definition mul (a b : value) : res value :=
  match num_of a, num_of b with
  | Some x, Some y =>
      bind (num_mul x y) (fun n =>
        Ok match n with NInt z => VInt z | NFloat f => VFloat f end)
  | _, _ => Raise TypeError
  end.

Definition add (a b : value) : res value :=
  match num_of a, num_of b with
  | Some x, Some y =>
      bind (num_add x y) (fun n =>
        Ok match n with NInt z => VInt z | NFloat f => VFloat f end)
  | _, _ => Raise TypeError
  end.

Definition gt (a b : value) : res bool :=
  match num_of a, num_of b with
  | Some x, Some y => Ok (num_gt x y)
  | _, _ => Raise TypeError
  end.

(** [max(l)]: the first largest item; [ValueError] on an empty
    sequence. *)
Fixpoint max_from (maxitem : value) (l : list value) : res value :=
  match l with
  | [] => Ok maxitem
  | item :: rest =>
      bind (gt item maxitem) (fun b =>
        max_from (if b then item else maxitem) rest)
  end.

Definition max (l : list value) : res value :=
  match l with
  | [] => Raise ValueError
  | first :: rest => max_from first rest
  end.

(** *** [format(v, '.0f')] *)

Definition digits (n : Z) : string :=
  NilEmpty.string_of_uint (N.to_uint (Z.to_N n)).

(** Nearest integer to [m / d], ties to even ([0 < d]). *)
Definition round_half_even (m d : Z) : Z :=
  let q := m / d in
  let r := m mod d in
  match 2 * r ?= d with
  | Lt => q
  | Gt => q + 1
  | Eq => if Z.even q then q else q + 1
  end.

Definition signed (s : bool) (body : string) : string :=
  if s then String "-" body else body.

Definition format_float_0f (f : spec_float) : string :=
  match f with
  | S754_nan => "nan"
  | S754_infinity s => signed s "inf"
  | S754_zero s => signed s "0"
  | S754_finite s m e =>
      signed s (digits (if 0 <=? e then Zpos m * 2 ^ e
                        else round_half_even (Zpos m) (2 ^ (- e))))
  end.

(** [int.__format__] with type ['f'] goes through [float]. On other
    types the format code is refused. *)
Definition format_0f (v : value) : res string :=
  match num_of v with
  | Some n => bind (to_float n) (fun f => Ok (format_float_0f f))
  | None => match v with
            | VStr _ => Raise ValueError
            | _ => Raise TypeError
            end
  end.

(** *** Iteration and subscription *)

Fixpoint chars (s : string) : list value :=
  match s with
  | EmptyString => []
  | String c s' => VStr (String c EmptyString) :: chars s'
  end.

(** [iter(v)]: a list gives its items, a dict its keys, a string its
    characters; nothing else is iterable. *)
Definition iter (v : value) : res (list value) :=
  match v with
  | VList l => Ok l
  | VDict d => Ok (map (fun kv => VStr (fst kv)) d)
  | VStr s => Ok (chars s)
  | _ => Raise TypeError
  end.

Fixpoint lookup (k : string) (d : list (string * value)) : option value :=
  match d with
  | [] => None
  | (k', v) :: d' => if String.eqb k' k then Some v else lookup k d'
  end.

(** [d[k]] for a string key [k]: [KeyError] on a dict without it,
    [TypeError] on everything that is not a dict. *)
Definition getitem (d : value) (k : string) : res value :=
  match d with
  | VDict kvs =>
      match lookup k kvs with
      | Some v => Ok v
      | None => Raise (KeyError k)
      end
  | _ => Raise TypeError
  end.

(** [[d[k] for d in items]] *)
Fixpoint field_of_each (k : string) (items : list value) : res (list value) :=
  match items with
  | [] => Ok []
  | d :: rest =>
      bind (getitem d k) (fun v =>
      bind (field_of_each k rest) (fun vs => Ok (v :: vs)))
  end.

(** A number whose [float] value is finite: not a NaN, not an
    infinity, not an int beyond the range of a float. *)
Definition finite_number (v : value) : bool :=
  match num_of v with
  | Some n =>
      match to_float n with
      | Ok (S754_finite _ _ _) | Ok (S754_zero _) => true
      | _ => false
      end
  | None => false
  end.

(** The [float] a number stands for in mixed arithmetic. *)
Definition float_value (v : value) : spec_float :=
  match num_of v with
  | Some n => match to_float n with Ok f => f | Raise _ => S754_nan end
  | None => S754_nan
  end.

(** *** Shapes of decoded documents *)

Definition has_key (k : string) (v : value) : bool :=
  match v with
  | VDict d => match lookup k d with Some _ => true | None => false end
  | _ => false
  end.

(** An object carrying both fields the script reads. *)
Definition record_ok (v : value) : bool :=
  has_key "Name" v && has_key "AvgMs" v.

(** An array whose items are all such objects. *)
Definition array_of_records (v : value) : bool :=
  match v with
  | VList items => forallb record_ok items
  | _ => false
  end.

(** The two documents that are not arrays and still iterate to
    nothing: [{}] and the empty string. *)
Definition empty_non_array (v : value) : bool :=
  match v with
  | VDict [] => true
  | VStr EmptyString => true
  | _ => false
  end.

(** A record whose [AvgMs] is a finite number. *)
Definition finite_record (d : value) : bool :=
  match getitem d "AvgMs" with
  | Ok v => finite_number v
  | Raise _ => false
  end.

(** *** Decimal integer texts *)

Definition is_digit (c : ascii) : bool :=
  (48 <=? nat_of_ascii c)%nat && (nat_of_ascii c <=? 57)%nat.

Fixpoint all_digits (s : string) : bool :=
  match s with
  | EmptyString => true
  | String c s' => is_digit c && all_digits s'
  end.

Definition digit_run (s : string) : bool :=
  negb (String.eqb s "") && all_digits s.

(** An optional minus sign and at least one digit. *)
Definition integer_text (s : string) : bool :=
  if PyStr.startswith "-" s then digit_run (PyStr.drop 1 s) else digit_run s.

(** *** Further shapes of items *)

Definition is_dict (v : value) : bool :=
  match v with
  | VDict _ => true
  | _ => false
  end.

(** [int], [bool] and [float] values: the operands arithmetic accepts. *)
Definition is_number (v : value) : bool :=
  match num_of v with
  | Some _ => true
  | None => false
  end.

(** A record whose [AvgMs] is present and not a number. *)
Definition odd_avg (d : value) : bool :=
  match getitem d "AvgMs" with
  | Ok v => negb (is_number v)
  | Raise _ => false
  end.

(** *** Plain numbers and their order *)

(** The smallest positive binary64 is [2^-1074]: every int and every
    finite binary64 is a whole number of such units. *)
Definition units (v : value) : Z :=
  match v with
  | VInt z => z * 2 ^ 1074
  | VFloat (S754_finite s m e) => cond_Zopp s (Zpos m) * 2 ^ (e + 1074)
  | _ => 0
  end.

(** The numbers a baseline holds: an int of the int64 range or a
    finite binary64 in canonical form (as the decoder produces them),
    whose [float] value is finite. *)
Definition plain_number (v : value) : bool :=
  finite_number v
  && match v with
     | VInt z => (- 2 ^ 63 <=? z) && (z <? 2 ^ 63)
     | VFloat f => valid_binary prec emax f
     | _ => false
     end.

(** A record with a string [Name] and a plain [AvgMs]. *)
Definition plain_record (d : value) : bool :=
  match getitem d "Name", getitem d "AvgMs" with
  | Ok (VStr _), Ok v => plain_number v
  | _, _ => false
  end.

End Py.

(* ================================================================= *)
(** ** matplotlib: the calls of the script, recorded on a figure

    The figure keeps what the script hands to the library: the bars as
    created from the two sequences given to [barh], the texts as given
    to [ax.text]. The calls are taken to succeed, which [barh] is
    known to do on string labels and plain numbers; the statements about
    bars are made for such data. [rows] gives the place of the bars on
    the categorical axis. *)

Module Mpl.

(** One rectangle of the [BarContainer] that [barh] returns. *)
Record Bar : Type := mkBar {
  bar_index : nat;          (* position in the container *)
  bar_label : Py.value;     (* the [y] entry it was created from *)
  bar_width : Py.value;     (* the [width] entry *)
  bar_color : string
}.

(** One [ax.text(x, y, s, va=...)] call. *)
Record Text : Type := mkText {
  text_x : Py.value;
  text_y : nat;
  text_s : string;
  text_va : string
}.

Record Figure : Type := mkFigure {
  style : string;
  figsize : Z * Z;
  bars : list Bar;
  xlabel : string;
  title : string;
  texts : list Text;
  tight : bool
}.

Definition blank : Figure :=
  mkFigure "default" (0, 0) [] "" "" [] false.

(** [Axes.bar] walks [itertools.cycle(colors)], falling back to
    ['none'] when the color list is empty. *)
Definition cycle_color (colors : list string) (i : nat) : string :=
  match colors with
  | [] => "none"
  | _ => nth (Nat.modulo i (List.length colors)) colors "none"
  end.

Fixpoint make_bars (colors : list string) (i : nat)
         (ys widths : list Py.value) : list Bar :=
  match ys, widths with
  | y :: ys', w :: widths' =>
      mkBar i y w (cycle_color colors i) :: make_bars colors (S i) ys' widths'
  | _, _ => []
  end.

(** The categorical axis that string labels are placed on
    ([matplotlib.category.UnitData]): every distinct label gets the next
    free row when it first appears, and a repeated label reuses the row
    of its first appearance. *)
Fixpoint categories (seen : list string) (labels : list string) : list string :=
  match labels with
  | [] => seen
  | x :: rest =>
      if existsb (String.eqb x) seen then categories seen rest
      else categories (seen ++ [x]) rest
  end.

Fixpoint first_index (x : string) (l : list string) : nat :=
  match l with
  | [] => 0
  | y :: l' => if String.eqb y x then 0 else S (first_index x l')
  end.

(** The row of each bar of [barh(labels, ...)], in container order. *)
Definition rows (labels : list string) : list nat :=
  map (fun x => first_index x (categories [] labels)) labels.

End Mpl.

(* ================================================================= *)
(** ** The world the script runs in *)

Inductive Node : Type :=
| Absent                     (* [p.exists()] is False *)
| Directory                  (* exists; [read_text] raises IsADirectoryError *)
| Unreadable                 (* exists; opening it raises OSError *)
| Undecodable                (* exists; its bytes are not valid text *)
| Regular (text : string).   (* exists; [read_text] returns [text] *)

Record World : Type := mkWorld {
  argv : list string;                          (* [sys.argv] *)
  stat : Pathlib.PurePath -> Node;             (* the file system *)
  writable : Pathlib.PurePath -> bool          (* can [savefig] write here *)
}.

(** What the process has done so far. *)
Record State : Type := mkState {
  stdout : list string;                             (* printed lines *)
  fig : Mpl.Figure;
  files : list (Pathlib.PurePath * Mpl.Figure)      (* images written *)
}.

Definition initial : State := mkState [] Mpl.blank [].

(** How a statement ends: normally, with an exception, or by
    [sys.exit(code)]. *)
Inductive ending (A : Type) : Type :=
| Done (a : A)
| Raised (e : Py.exn)
| Exited (code : Z).
Arguments Done {A} a.
Arguments Raised {A} e.
Arguments Exited {A} code.

Definition M (A : Type) : Type := State -> ending A * State.

Definition ret {A} (a : A) : M A := fun st => (Done a, st).

Definition bind {A B} (m : M A) (k : A -> M B) : M B :=
  fun st =>
    match m st with
    | (Done a, st') => k a st'
    | (Raised e, st') => (Raised e, st')
    | (Exited c, st') => (Exited c, st')
    end.

Declare Scope script_scope.
Delimit Scope script_scope with script.
Notation "x <- m ;; k" := (bind m (fun x => k))
  (at level 61, m at next level, right associativity) : script_scope.
Notation "m ;; k" := (bind m (fun _ => k))
  (at level 61, right associativity) : script_scope.
Local Open Scope script_scope.

(** An expression that may raise. *)
Definition eval {A} (r : Py.res A) : M A :=
  fun st =>
    match r with
    | Py.Ok a => (Done a, st)
    | Py.Raise e => (Raised e, st)
    end.

Definition sys_exit (code : Z) : M unit := fun st => (Exited code, st).

(** [print(line)] *)
Definition print (line : string) : M unit :=
  fun st => (Done tt, mkState (stdout st ++ [line]) (fig st) (files st)).

Definition on_fig (f : Mpl.Figure -> Mpl.Figure) : M unit :=
  fun st => (Done tt, mkState (stdout st) (f (fig st)) (files st)).

Definition style_use (name : string) : M unit :=
  on_fig (fun g => Mpl.mkFigure name (Mpl.figsize g) (Mpl.bars g) (Mpl.xlabel g)
                                (Mpl.title g) (Mpl.texts g) (Mpl.tight g)).

Definition subplots (size : Z * Z) : M unit :=
  on_fig (fun g => Mpl.mkFigure (Mpl.style g) size (Mpl.bars g) (Mpl.xlabel g)
                                (Mpl.title g) (Mpl.texts g) (Mpl.tight g)).

Definition barh (ys widths : list Py.value) (colors : list string) : M unit :=
  on_fig (fun g => Mpl.mkFigure (Mpl.style g) (Mpl.figsize g)
                                (Mpl.bars g ++ Mpl.make_bars colors 0 ys widths)
                                (Mpl.xlabel g) (Mpl.title g) (Mpl.texts g) (Mpl.tight g)).

Definition set_xlabel (s : string) : M unit :=
  on_fig (fun g => Mpl.mkFigure (Mpl.style g) (Mpl.figsize g) (Mpl.bars g) s
                                (Mpl.title g) (Mpl.texts g) (Mpl.tight g)).

Definition set_title (s : string) : M unit :=
  on_fig (fun g => Mpl.mkFigure (Mpl.style g) (Mpl.figsize g) (Mpl.bars g) (Mpl.xlabel g)
                                s (Mpl.texts g) (Mpl.tight g)).

Definition ax_text (x : Py.value) (y : nat) (s va : string) : M unit :=
  on_fig (fun g => Mpl.mkFigure (Mpl.style g) (Mpl.figsize g) (Mpl.bars g) (Mpl.xlabel g)
                                (Mpl.title g) (Mpl.texts g ++ [Mpl.mkText x y s va])
                                (Mpl.tight g)).

Definition tight_layout : M unit :=
  on_fig (fun g => Mpl.mkFigure (Mpl.style g) (Mpl.figsize g) (Mpl.bars g) (Mpl.xlabel g)
                                (Mpl.title g) (Mpl.texts g) true).

(** The state after [ts] more [ax.text] calls. *)
Definition push_texts (ts : list Mpl.Text) (st : State) : State :=
  let g := fig st in
  mkState (stdout st)
          (Mpl.mkFigure (Mpl.style g) (Mpl.figsize g) (Mpl.bars g) (Mpl.xlabel g)
                        (Mpl.title g) (Mpl.texts g ++ ts) (Mpl.tight g))
          (files st).

(** [for i, v in enumerate(l): body], counting from [i]. *)
Fixpoint for_enumerate {A} (body : nat -> A -> M unit) (i : nat) (l : list A) : M unit :=
  match l with
  | [] => ret tt
  | v :: rest => body i v ;; for_enumerate body (S i) rest
  end.

(** The [Text] that line 25 creates for bar [i] with value [v], or the
    exception its argument expressions raise (evaluated left to right). *)
Definition annotation (avgs : list Py.value) (i : nat) (v : Py.value) : Py.res Mpl.Text :=
  Py.bind (Py.max avgs) (fun m =>
  Py.bind (Py.mul m (Py.VFloat Py.one_percent)) (fun off =>
  Py.bind (Py.add v off) (fun x =>
  Py.bind (Py.format_0f v) (fun s =>
  Py.Ok (Mpl.mkText x i (s ++ " ms") "center"))))).

(** What [annotation] gives on finite numbers, [m] being [max(avgs)]. *)
Definition label_at (m : Py.value) (i : nat) (v : Py.value) : Mpl.Text :=
  Mpl.mkText
    (Py.VFloat (SFadd Py.prec Py.emax (Py.float_value v)
                  (SFmul Py.prec Py.emax (Py.float_value m) Py.one_percent)))
    i (Py.format_float_0f (Py.float_value v) ++ " ms") "center".

(** [[f(i, v) for i, v in enumerate(l, start)]] *)
Fixpoint map_enumerate {A B} (f : nat -> A -> B) (start : nat) (l : list A) : list B :=
  match l with
  | [] => []
  | v :: rest => f start v :: map_enumerate f (S start) rest
  end.

(** The texts the loop of lines 24-25 adds for the items [l], counted
    from [i], and the exception that stopped it, if any. *)
Fixpoint annotations (avgs : list Py.value) (i : nat) (l : list Py.value)
  : list Mpl.Text * option Py.exn :=
  match l with
  | [] => ([], None)
  | v :: rest =>
      match annotation avgs i v with
      | Py.Raise e => ([], Some e)
      | Py.Ok t => let '(ts, r) := annotations avgs (S i) rest in (t :: ts, r)
      end
  end.

Section Script.

(** [json.loads]; [None] stands for [JSONDecodeError]. *)
Variable json_loads : string -> option Py.value.

Variable w : World.

Definition palette : list string :=
  ["#2b8cbe"; "#7bccc4"; "#a6bddb"; "#d0d1e6"].

(** The figure after lines 19-23, then with the texts [ts] added. *)
Definition chart (names avgs : list Py.value) (ts : list Mpl.Text) (tight : bool)
  : Mpl.Figure :=
  Mpl.mkFigure "ggplot" (8, 4)
               (Mpl.make_bars (firstn (List.length names) palette) 0 names avgs)
               "Average elapsed (ms)"
               "Performance baseline — Avg elapsed per scenario"
               ts tight.

(** [p.exists()] *)
Definition exists_ (p : Pathlib.PurePath) : bool :=
  match stat w p with
  | Absent => false
  | _ => true
  end.

(** [p.read_text()] *)
Definition read_text (p : Pathlib.PurePath) : M string :=
  match stat w p with
  | Absent | Unreadable => eval (Py.Raise Py.OSError)
  | Directory => eval (Py.Raise Py.IsADirectoryError)
  | Undecodable => eval (Py.Raise Py.UnicodeDecodeError)
  | Regular text => ret text
  end.

Definition loads (text : string) : M Py.value :=
  match json_loads text with
  | Some v => ret v
  | None => eval (Py.Raise Py.JSONDecodeError)
  end.

(** [[d[k] for d in data]] *)
Definition comprehension (k : string) (data : Py.value) : M (list Py.value) :=
  eval (Py.bind (Py.iter data) (Py.field_of_each k)).

(** Line 25: [ax.text(v + max(avgs)*0.01, i, f"{v:.0f} ms", va='center')] *)
Definition annotate (avgs : list Py.value) (i : nat) (v : Py.value) : M unit :=
  m <- eval (Py.max avgs) ;;
  off <- eval (Py.mul m (Py.VFloat Py.one_percent)) ;;
  x <- eval (Py.add v off) ;;
  s <- eval (Py.format_0f v) ;;
  ax_text x i (s ++ " ms") "center".

(** [fig.savefig(out)] *)
Definition savefig (out : Pathlib.PurePath) : M unit :=
  fun st =>
    if writable w out
    then (Done tt, mkState (stdout st) (fig st) (files st ++ [(out, fig st)]))
    else (Raised Py.OSError, st).

(** [Path(sys.argv[1])] *)
Definition target : Pathlib.PurePath := Pathlib.Path (nth 1 (argv w) "").

(** The script, statement by statement. *)
Definition main : M unit :=
  if (Z.of_nat (List.length (argv w)) <? 2) then
    print "Usage: plot_performance.py <baseline.json>" ;;
    sys_exit 2
  else
    let p := Pathlib.Path (nth 1 (argv w) "") in
    if negb (exists_ p) then
      print ("File not found:" ++ " " ++ Pathlib.str p) ;;
      sys_exit 2
    else
      text <- read_text p ;;
      data <- loads text ;;
      names <- comprehension "Name" data ;;
      avgs <- comprehension "AvgMs" data ;;
      style_use "ggplot" ;;
      subplots (8, 4) ;;
      barh names avgs (firstn (List.length names) palette) ;;
      set_xlabel "Average elapsed (ms)" ;;
      set_title "Performance baseline — Avg elapsed per scenario" ;;
      for_enumerate (annotate avgs) 0 avgs ;;
      let out := out_path p in
      tight_layout ;;
      savefig out ;;
      print ("Wrote" ++ " " ++ Pathlib.str out).

(** What the caller of the process observes. An uncaught exception
    prints a traceback on stderr and gives exit status 1. *)
Record Outcome : Type := mkOutcome {
  exit_code : Z;
  uncaught : option Py.exn;
  printed : list string;
  written : list (Pathlib.PurePath * Mpl.Figure);
  figure : Mpl.Figure
}.

Definition run : Outcome :=
  match main initial with
  | (Done _, st) => mkOutcome 0 None (stdout st) (files st) (fig st)
  | (Raised e, st) => mkOutcome 1 (Some e) (stdout st) (files st) (fig st)
  | (Exited c, st) => mkOutcome c None (stdout st) (files st) (fig st)
  end.

End Script.

(** Invoked as [plot_performance.py path] where nothing exists, or where
    everything is a directory; and invoked without an argument. *)
Definition world_absent (path : string) : World :=
  mkWorld ["plot_performance.py"; path] (fun _ => Absent) (fun _ => true).

Definition world_dir (path : string) : World :=
  mkWorld ["plot_performance.py"; path] (fun _ => Directory) (fun _ => true).

Definition world_no_arg : World :=
  mkWorld ["plot_performance.py"] (fun _ => Absent) (fun _ => true).

(** The outcome of a run stopped by the uncaught exception [e]
    before anything was printed or written. *)
Definition failed (e : Py.exn) (g : Mpl.Figure) : Outcome :=
  mkOutcome 1 (Some e) [] [] g.

(** Facts about [json.loads] used in the examples: the decoder restricted
    to a handful of texts. *)
Definition rec2 (nm : string) (avg : Py.value) : Py.value :=
  Py.VDict [("Name", Py.VStr nm); ("AvgMs", avg)].

(** [q s] is [s] between double quotes, as in a JSON text. *)
Definition q (s : string) : string :=
  String (ascii_of_nat 34) (s ++ String (ascii_of_nat 34) EmptyString).

(** The text [[{"Name":"A","AvgMs":10},{"Name":"B","AvgMs":20}]] *)
Definition two_records_text : string :=
  "[{" ++ q "Name" ++ ":" ++ q "A" ++ "," ++ q "AvgMs" ++ ":10},{"
       ++ q "Name" ++ ":" ++ q "B" ++ "," ++ q "AvgMs" ++ ":20}]".

(** The text [[{"Name":"A"}]] *)
Definition no_avg_text : string := "[{" ++ q "Name" ++ ":" ++ q "A" ++ "}]".

(** The decoder on the texts the examples use; any other text of the
    examples, such as [not json], is not JSON. *)
Definition sample_loads (text : string) : option Py.value :=
  if String.eqb text "[]" then Some (Py.VList [])
  else if String.eqb text "{}" then Some (Py.VDict [])
  else if String.eqb text two_records_text
  then Some (Py.VList [rec2 "A" (Py.VInt 10); rec2 "B" (Py.VInt 20)])
  else if String.eqb text no_avg_text
  then Some (Py.VList [Py.VDict [("Name", Py.VStr "A")]])
  else None.

(** The text [[{"Name":"A","AvgMs":null}]] and the decoder on it. *)
Definition null_avg_text : string :=
  "[{" ++ q "Name" ++ ":" ++ q "A" ++ "," ++ q "AvgMs" ++ ":null}]".

Definition null_loads (text : string) : option Py.value :=
  if String.eqb text null_avg_text then Some (Py.VList [rec2 "A" Py.VNone])
  else None.

(** The text [[{"Name":"A","AvgMs":1},{"Name":"A","AvgMs":2}]], two
    records of the same name, and the decoder on it. *)
Definition same_name_text : string :=
  "[{" ++ q "Name" ++ ":" ++ q "A" ++ "," ++ q "AvgMs" ++ ":1},{"
       ++ q "Name" ++ ":" ++ q "A" ++ "," ++ q "AvgMs" ++ ":2}]".

Definition same_name_loads (text : string) : option Py.value :=
  if String.eqb text same_name_text
  then Some (Py.VList [rec2 "A" (Py.VInt 1); rec2 "A" (Py.VInt 2)])
  else None.

(** Six records [a] .. [f] with averages 1 .. 6, and the decoder on
    their text. *)
Definition six_records : list Py.value :=
  [rec2 "a" (Py.VInt 1); rec2 "b" (Py.VInt 2); rec2 "c" (Py.VInt 3);
   rec2 "d" (Py.VInt 4); rec2 "e" (Py.VInt 5); rec2 "f" (Py.VInt 6)].

Definition six_records_text : string :=
  "[{" ++ q "Name" ++ ":" ++ q "a" ++ "," ++ q "AvgMs" ++ ":1},{"
       ++ q "Name" ++ ":" ++ q "b" ++ "," ++ q "AvgMs" ++ ":2},{"
       ++ q "Name" ++ ":" ++ q "c" ++ "," ++ q "AvgMs" ++ ":3},{"
       ++ q "Name" ++ ":" ++ q "d" ++ "," ++ q "AvgMs" ++ ":4},{"
       ++ q "Name" ++ ":" ++ q "e" ++ "," ++ q "AvgMs" ++ ":5},{"
       ++ q "Name" ++ ":" ++ q "f" ++ "," ++ q "AvgMs" ++ ":6}]".

Definition six_loads (text : string) : option Py.value :=
  if String.eqb text six_records_text then Some (Py.VList six_records) else None.

(** A world with one regular file [path] holding [text], invoked as
    [plot_performance.py path], where every location is writable. *)
Definition world_with (path text : string) : World :=
  mkWorld ["plot_performance.py"; path]
          (fun p => if String.eqb (Pathlib.str p) (Pathlib.str (Pathlib.Path path))
                    then Regular text else Absent)
          (fun _ => true).

(* ================================================================= *)
(** * Properties *)

(** ** Strings *)

Module PyStrFacts.
Import PyStr.


Lemma append_assoc (a b c : string) : (a ++ b) ++ c = a ++ (b ++ c).
Proof. induction a as [|x a IH]; simpl; [reflexivity | now rewrite IH]. Qed.

Lemma mem_app (c : ascii) (a b : string) :
  mem c (a ++ b) = mem c a || mem c b.
Proof.
  induction a as [|x a IH]; simpl; [reflexivity|].
  rewrite IH. now rewrite orb_assoc.
Qed.

Lemma split_not_nil (c : ascii) (s : string) : split c s <> [].
Proof.
  induction s as [|a s IH]; simpl; [discriminate|].
  destruct (Ascii.eqb a c); [discriminate|].
  destruct (split c s); discriminate.
Qed.

(** A string without the separator is its own single field. *)
Lemma split_free (c : ascii) (x : string) :
  mem c x = false -> split c x = [x].
Proof.
  induction x as [|a x IH]; simpl; intros H; [reflexivity|].
  apply orb_false_iff in H as [Ha Hx].
  rewrite Ha, (IH Hx). reflexivity.
Qed.

Lemma split_app (c : ascii) (x s : string) :
  mem c x = false -> split c (x ++ String c s) = x :: split c s.
Proof.
  induction x as [|a x IH]; simpl; intros H.
  - now rewrite Ascii.eqb_refl.
  - apply orb_false_iff in H as [Ha Hx].
    rewrite Ha, (IH Hx). reflexivity.
Qed.

(** Every field that [split] returns is free of the separator. *)
Lemma split_fields_free (c : ascii) (s : string) :
  Forall (fun x => mem c x = false) (split c s).
Proof.
  induction s as [|a s IH]; simpl.
  - repeat constructor.
  - destruct (Ascii.eqb a c) eqn:E.
    + constructor; [reflexivity | exact IH].
    + destruct (split c s) as [|h t]; [repeat constructor; simpl; now rewrite E|].
      inversion IH; subst. constructor; [simpl; now rewrite E | assumption].
Qed.

(** [split] undoes [join] on separator-free fields. *)
Lemma split_join (c : ascii) (l : list string) :
  l <> [] -> Forall (fun x => mem c x = false) l -> split c (join c l) = l.
Proof.
  induction l as [|x l IH]; intros Hne Hall; [congruence|].
  inversion Hall as [|? ? Hx Hl]; subst.
  destruct l as [|y l].
  - simpl. now apply split_free.
  - change (join c (x :: y :: l)) with (x ++ String c (join c (y :: l))).
    rewrite (split_app _ _ _ Hx), IH; [reflexivity | discriminate | assumption].
Qed.

Lemma join_snoc (c : ascii) (l : list string) (k : string) :
  l <> [] -> join c (l ++ [k])%list = join c l ++ String c k.
Proof.
  induction l as [|x l IH]; intros Hne; [congruence|].
  destruct l as [|y l]; [reflexivity|].
  change (join c ((x :: y :: l) ++ [k]))
    with (x ++ String c (join c ((y :: l) ++ [k]))).
  rewrite IH by discriminate.
  change (join c (x :: y :: l)) with (x ++ String c (join c (y :: l))).
  now rewrite append_assoc.
Qed.


Lemma mem_take (c : ascii) (n : nat) (s : string) :
  mem c s = false -> mem c (take n s) = false.
Proof.
  revert s; induction n as [|n IH]; intros [|a s]; simpl; try reflexivity.
  intros H. apply orb_false_iff in H as [Ha Hs].
  now rewrite Ha, (IH _ Hs).
Qed.

Lemma len_cons (a : ascii) (s : string) : len (String a s) = len s + 1.
Proof. unfold len. simpl String.length. lia. Qed.

Lemma len_nonneg (s : string) : 0 <= len s.
Proof. unfold len. lia. Qed.


Lemma startswith_free (c : ascii) (x : string) :
  mem c x = false -> startswith c x = false.
Proof.
  destruct x as [|a x]; simpl; [reflexivity|].
  intros H. now apply orb_false_iff in H as [Ha _].
Qed.

Lemma endswith_free (c : ascii) (x : string) :
  mem c x = false -> endswith c x = false.
Proof.
  induction x as [|a x IH]; simpl; [reflexivity|].
  intros H. apply orb_false_iff in H as [Ha Hx].
  destruct x; [assumption | now apply IH].
Qed.

Lemma endswith_app (c : ascii) (a b : string) :
  b <> "" -> endswith c (a ++ b) = endswith c b.
Proof.
  intros Hb. induction a as [|x a IH]; [reflexivity|].
  simpl. destruct (a ++ b) eqn:E; [|exact IH].
  destruct a; simpl in E; [congruence | discriminate].
Qed.

End PyStrFacts.

(** ** Paths *)

Module PathlibFacts.
Import PyStr PyStrFacts Pathlib.

Lemma keep_part_ok (x : string) : part_ok x -> keep_part x = true.
Proof.
  intros (H1 & H2 & _). unfold keep_part.
  apply andb_true_iff; split; apply negb_true_iff, String.eqb_neq; assumption.
Qed.

Lemma filter_keep_id (l : list string) :
  Forall part_ok l -> filter keep_part l = l.
Proof.
  induction 1 as [|x l Hx _ IH]; simpl; [reflexivity|].
  now rewrite (keep_part_ok _ Hx), IH.
Qed.

Lemma filter_keep_ok (l : list string) :
  Forall (fun x => mem sep x = false) l -> Forall part_ok (filter keep_part l).
Proof.
  induction 1 as [|x l Hx _ IH]; simpl; [constructor|].
  destruct (keep_part x) eqn:E; [|exact IH].
  constructor; [|exact IH].
  unfold keep_part in E. apply andb_true_iff in E as [E1 E2].
  apply negb_true_iff, String.eqb_neq in E1, E2.
  repeat split; assumption.
Qed.

Lemma splitroot_root (s : string) :
  fst (splitroot s) = "" \/ fst (splitroot s) = "/" \/ fst (splitroot s) = "//".
Proof.
  unfold splitroot.
  destruct s as [|a s]; [now left|].
  cbn [startswith drop take].
  destruct (Ascii.eqb a sep) eqn:E1; cbn [negb fst]; [|now left].
  apply Ascii.eqb_eq in E1. subst a.
  destruct s as [|b s]; cbn [startswith negb orb fst]; [now right; left|].
  destruct (Ascii.eqb b sep) eqn:E2; cbn [negb orb fst]; [|now right; left].
  apply Ascii.eqb_eq in E2. subst b.
  destruct (startswith sep s); cbn [fst]; [now right; left | now right; right].
Qed.

(** Whatever string is parsed, the result is well formed. *)
Lemma parse_path_wf (s : string) : wf (parse_path s).
Proof.
  unfold parse_path. destruct s as [|a s].
  - split; [now left | constructor].
  - destruct (splitroot (String a s)) as [rt rel] eqn:E.
    split; simpl.
    + pose proof (splitroot_root (String a s)) as H. now rewrite E in H.
    + apply filter_keep_ok, split_fields_free.
Qed.

Lemma part_ok_free (x : string) : part_ok x -> mem sep x = false.
Proof. now intros (_ & _ & H). Qed.

Lemma parts_free (l : list string) :
  Forall part_ok l -> Forall (fun x => mem sep x = false) l.
Proof. intros H. eapply Forall_impl; [|exact H]. exact part_ok_free. Qed.

(** Parsing the relative part written by [join] gives the parts back. *)
Lemma parse_tail (l : list string) :
  Forall part_ok l -> filter keep_part (split sep (join sep l)) = l.
Proof.
  intros H. destruct l as [|x l]; [reflexivity|].
  rewrite split_join; [now apply filter_keep_id | discriminate | now apply parts_free].
Qed.

(** The text of a non-empty tail starts with a character other than
    the separator. *)
Lemma join_head (x : string) (l : list string) :
  part_ok x ->
  exists a r, join sep (x :: l) = String a r /\ Ascii.eqb a sep = false.
Proof.
  intros (Hne & _ & Hfree).
  destruct x as [|a x]; [congruence|].
  simpl in Hfree. apply orb_false_iff in Hfree as [Ha _].
  destruct l; simpl; eauto.
Qed.

Lemma splitroot_rooted (rt : string) (a : ascii) (r : string) :
  rt = "" \/ rt = "/" \/ rt = "//" ->
  Ascii.eqb a sep = false ->
  splitroot (rt ++ String a r) = (rt, String a r).
Proof.
  intros [-> | [-> | ->]] Ha; unfold splitroot.
  - cbn [append startswith]. now rewrite Ha.
  - change (startswith sep ("/" ++ String a r)) with true.
    change (drop 1 ("/" ++ String a r)) with (String a r).
    cbn [startswith negb]. now rewrite Ha.
  - change (startswith sep ("//" ++ String a r)) with true.
    change (startswith sep (drop 1 ("//" ++ String a r))) with true.
    change (drop 2 ("//" ++ String a r)) with (String a r).
    cbn [startswith negb orb]. now rewrite Ha.
Qed.

(** [Path(str(p)) = p], stated on the raw text. *)
Lemma parse_format (p : PurePath) :
  wf p -> parse_path (format_parsed_parts p) = p.
Proof.
  destruct p as [rt tl]. intros [Hroot Htail]. simpl in Hroot, Htail.
  unfold format_parsed_parts; simpl root; simpl tail.
  destruct tl as [|x tl].
  - destruct Hroot as [-> | [-> | ->]]; reflexivity.
  - inversion Htail as [|? ? Hx Htl]; subst.
    destruct (join_head x tl Hx) as (a & r & Hj & Ha).
    pose proof (parse_tail (x :: tl) Htail) as Hp.
    rewrite Hj in Hp |- *.
    unfold parse_path.
    rewrite (splitroot_rooted rt a r Hroot Ha).
    destruct (rt ++ String a r) eqn:E.
    + destruct rt; discriminate.
    + now rewrite Hp.
Qed.

Lemma parse_str (p : PurePath) : wf p -> parse_path (str p) = p.
Proof.
  intros H. unfold str.
  destruct (format_parsed_parts p) eqn:E.
  - rewrite <- (parse_format p H), E. reflexivity.
  - rewrite <- E. now apply parse_format.
Qed.

Lemma format_empty (p : PurePath) :
  wf p -> tail p <> [] -> format_parsed_parts p <> ""
          /\ endswith sep (format_parsed_parts p) = false.
Proof.
  destruct p as [rt tl]. intros [_ Htail] Hne. simpl in *.
  unfold format_parsed_parts; simpl.
  assert (Hlast : exists init z, tl = (init ++ [z])%list).
  { destruct (exists_last Hne) as (init & z & ->). eauto. }
  destruct Hlast as (init & z & ->).
  apply Forall_app in Htail as [Hinit Hz]. inversion Hz as [|? ? (Hz1 & _ & Hz3) _]; subst.
  assert (Hj : exists pre, join sep (init ++ [z])%list = pre ++ z).
  { destruct init as [|i0 init]; [now exists ""|].
    rewrite join_snoc by discriminate.
    exists (join sep (i0 :: init) ++ String sep "").
    rewrite append_assoc. reflexivity. }
  destruct Hj as [pre ->]. rewrite <- append_assoc.
  split.
  - destruct (rt ++ pre); simpl; [assumption | discriminate].
  - rewrite endswith_app by assumption. now apply endswith_free.
Qed.

(** Joining a well-formed path with one good component appends it. *)
Lemma joinpath_part (p : PurePath) (key : string) :
  wf p -> part_ok key -> joinpath p key = mkPath (root p) (tail p ++ [key])%list.
Proof.
  intros Hwf Hkey.
  assert (Hwf' : wf (mkPath (root p) (tail p ++ [key])%list)).
  { destruct Hwf as [Hr Ht]. split; simpl; [assumption|].
    apply Forall_app; split; [assumption | now constructor]. }
  rewrite <- (parse_format _ Hwf'). unfold joinpath. f_equal.
  unfold posix_join.
  rewrite (startswith_free _ _ (part_ok_free _ Hkey)).
  destruct p as [rt tl]. destruct tl as [|x tl].
  - unfold format_parsed_parts; simpl.
    destruct Hwf as [[Hr | [Hr | Hr]] _]; simpl in Hr; subst rt; reflexivity.
  - destruct (format_empty (mkPath rt (x :: tl)) Hwf) as [Hne Hend]; [discriminate|].
    rewrite Hend. apply String.eqb_neq in Hne. rewrite Hne. simpl orb. cbv iota.
    unfold format_parsed_parts. cbn [root tail].
    rewrite join_snoc by discriminate.
    now rewrite append_assoc.
Qed.

Lemma parent_wf (p : PurePath) : wf p -> wf (parent p).
Proof.
  intros [Hr Ht]. unfold parent. destruct (tail p) as [|x tl] eqn:E.
  - split; [exact Hr | rewrite E; constructor].
  - split; [exact Hr|]. cbn [tail].
    destruct (exists_last (l := x :: tl)) as (init & z & Hl); [discriminate|].
    rewrite Hl in Ht |- *. rewrite removelast_last.
    now apply Forall_app in Ht as [Hi _].
Qed.

Lemma name_free (p : PurePath) : wf p -> mem sep (name p) = false.
Proof.
  intros [_ Ht]. unfold name.
  destruct (tail p) as [|x tl] eqn:E; [reflexivity|].
  destruct (exists_last (l := x :: tl)) as (init & z & Hl); [discriminate|].
  rewrite Hl in Ht |- *. rewrite last_last.
  apply Forall_app in Ht as [_ Hz]. inversion Hz; subst. now apply part_ok_free.
Qed.

Lemma stem_free (p : PurePath) : wf p -> mem sep (stem p) = false.
Proof.
  intros H. unfold stem. destruct (has_suffix (name p)).
  - apply mem_take. now apply name_free.
  - now apply name_free.
Qed.

Lemma out_name_ok (p : PurePath) : wf p -> part_ok (out_name p).
Proof.
  intros H. unfold out_name. repeat split.
  - discriminate.
  - discriminate.
  - rewrite !mem_app, (stem_free _ H). reflexivity.
Qed.



(** The stem is where the name stops being followed by its suffix,
    and it is never empty for a non-empty name. *)
Lemma stem_not_empty (p : PurePath) : name p <> "" -> stem p <> "".
Proof.
  unfold stem, has_suffix. cbv zeta. intros Hn.
  destruct ((0 <? rfind dot (name p)) && (rfind dot (name p) <? len (name p) - 1)) eqn:E;
    [|assumption].
  apply andb_true_iff in E as [E1 _]. apply Z.ltb_lt in E1.
  destruct (name p) as [|a nm]; [congruence|].
  destruct (Z.to_nat (rfind dot (String a nm))) eqn:En; [lia|].
  simpl. discriminate.
Qed.

End PathlibFacts.

(** ** The monad and the annotation loop *)

Lemma bind_done {A B} (m : M A) (k : A -> M B) (st st' : State) (a : A) :
  m st = (Done a, st') -> bind m k st = k a st'.
Proof. intros H. unfold bind. now rewrite H. Qed.

Lemma bind_raised {A B} (m : M A) (k : A -> M B) (st st' : State) (e : Py.exn) :
  m st = (Raised e, st') -> bind m k st = (Raised e, st').
Proof. intros H. unfold bind. now rewrite H. Qed.

Lemma push_texts_nil (st : State) : push_texts [] st = st.
Proof.
  destruct st as [o [sty sz bs xl tt ts tg] fs]. unfold push_texts. simpl.
  now rewrite app_nil_r.
Qed.

Lemma push_texts_cons (t : Mpl.Text) (ts : list Mpl.Text) (st : State) :
  push_texts ts (push_texts [t] st) = push_texts (t :: ts) st.
Proof.
  unfold push_texts. simpl. now rewrite <- app_assoc.
Qed.

(** One round of the loop either adds its text or raises, leaving the
    state as it was. *)
Lemma annotate_step (avgs : list Py.value) (i : nat) (v : Py.value) (st : State) :
  annotate avgs i v st =
  match annotation avgs i v with
  | Py.Ok t => (Done tt, push_texts [t] st)
  | Py.Raise e => (Raised e, st)
  end.
Proof.
  unfold annotate, annotation, bind, eval.
  destruct (Py.max avgs) as [m|e]; simpl; [|reflexivity].
  destruct (Py.mul m (Py.VFloat Py.one_percent)) as [off|e]; simpl; [|reflexivity].
  destruct (Py.add v off) as [x|e]; simpl; [|reflexivity].
  destruct (Py.format_0f v) as [s|e]; simpl; reflexivity.
Qed.

(** The whole loop, in one equation. *)
Lemma loop_annotations (avgs l : list Py.value) :
  forall (i : nat) (st : State),
    for_enumerate (annotate avgs) i l st =
    (match snd (annotations avgs i l) with
     | None => Done tt
     | Some e => Raised e
     end,
     push_texts (fst (annotations avgs i l)) st).
Proof.
  induction l as [|v rest IH]; intros i st.
  - simpl. now rewrite push_texts_nil.
  - cbn [for_enumerate annotations]. unfold bind. rewrite annotate_step.
    destruct (annotation avgs i v) as [t|e].
    + rewrite IH. destruct (annotations avgs (S i) rest) as [ts r].
      cbn [fst snd]. now rewrite push_texts_cons.
    + cbn [fst snd]. now rewrite push_texts_nil.
Qed.

(** ** The script, branch by branch *)

Section ScriptFacts.

Variable json_loads : string -> option Py.value.
Variable w : World.

Let p := target w.

Lemma run_usage :
  (Z.of_nat (List.length (argv w)) <? 2) = true ->
  run json_loads w
  = mkOutcome 2 None ["Usage: plot_performance.py <baseline.json>"] [] Mpl.blank.
Proof. intros H. unfold run, main. rewrite H. reflexivity. Qed.

Lemma run_not_found :
  (Z.of_nat (List.length (argv w)) <? 2) = false ->
  stat w p = Absent ->
  run json_loads w
  = mkOutcome 2 None ["File not found: " ++ Pathlib.str p] [] Mpl.blank.
Proof.
  intros H1 H2. unfold run, main. rewrite H1. unfold exists_.
  fold (target w). fold p. rewrite H2. reflexivity.
Qed.

(** The file exists and cannot be read as text. *)
Lemma run_read_fails :
  (Z.of_nat (List.length (argv w)) <? 2) = false ->
  stat w p <> Absent ->
  (forall text, stat w p <> Regular text) ->
  run json_loads w
  = failed match stat w p with
           | Directory => Py.IsADirectoryError
           | Undecodable => Py.UnicodeDecodeError
           | _ => Py.OSError
           end Mpl.blank.
Proof.
  intros H1 H2 H3. unfold run, main. rewrite H1. unfold exists_, read_text.
  fold (target w). fold p.
  destruct (stat w p) eqn:E; try reflexivity; [congruence|].
  now destruct (H3 text).
Qed.

(** The file is read, but decoding or one of the two comprehensions
    raises. *)
Lemma run_extract_fails (text : string) (e : Py.exn) :
  (Z.of_nat (List.length (argv w)) <? 2) = false ->
  stat w p = Regular text ->
  match json_loads text with
  | None => e = Py.JSONDecodeError
  | Some data =>
      match Py.bind (Py.iter data) (Py.field_of_each "Name") with
      | Py.Raise e' => e = e'
      | Py.Ok _ => Py.bind (Py.iter data) (Py.field_of_each "AvgMs") = Py.Raise e
      end
  end ->
  run json_loads w = failed e Mpl.blank.
Proof.
  intros H1 H2 H3. unfold run, main. rewrite H1. unfold exists_.
  fold (target w). fold p. rewrite H2. cbn [negb].
  cbv beta iota zeta delta [bind ret eval read_text loads comprehension].
  rewrite H2. cbv beta iota.
  destruct (json_loads text) as [data|]; [|subst e; reflexivity].
  cbv beta iota.
  destruct (Py.bind (Py.iter data) (Py.field_of_each "Name")) as [names|e'];
    [|subst e; reflexivity].
  cbv beta iota. rewrite H3. reflexivity.
Qed.

(** Both comprehensions succeed: the chart is built, annotated, saved
    and reported. *)
Lemma run_plot (text : string) (data : Py.value) (names avgs : list Py.value) :
  (Z.of_nat (List.length (argv w)) <? 2) = false ->
  stat w p = Regular text ->
  json_loads text = Some data ->
  Py.bind (Py.iter data) (Py.field_of_each "Name") = Py.Ok names ->
  Py.bind (Py.iter data) (Py.field_of_each "AvgMs") = Py.Ok avgs ->
  run json_loads w =
  let ts := fst (annotations avgs 0 avgs) in
  match snd (annotations avgs 0 avgs) with
  | Some e => failed e (chart names avgs ts false)
  | None =>
      if writable w (out_path p)
      then mkOutcome 0 None ["Wrote " ++ Pathlib.str (out_path p)]
                     [(out_path p, chart names avgs ts true)]
                     (chart names avgs ts true)
      else failed Py.OSError (chart names avgs ts true)
  end.
Proof.
  intros H1 H2 H3 H4 H5. unfold run, main. rewrite H1. unfold exists_.
  fold (target w). fold p. rewrite H2. cbn [negb].
  cbv beta iota zeta delta
      [bind ret eval read_text loads comprehension style_use subplots barh
       set_xlabel set_title on_fig tight_layout savefig print
       initial stdout fig files Mpl.blank
       Mpl.style Mpl.figsize Mpl.bars Mpl.xlabel Mpl.title Mpl.texts Mpl.tight].
  rewrite H2, H3. cbv beta iota. rewrite H4. cbv beta iota. rewrite H5.
  cbv beta iota. rewrite loop_annotations.
  destruct (annotations avgs 0 avgs) as [ts [e|]]; cbn [fst snd]; [reflexivity|].
  unfold push_texts; cbn [stdout fig files Mpl.style Mpl.figsize Mpl.bars Mpl.xlabel
                          Mpl.title Mpl.texts Mpl.tight].
  destruct (writable w (out_path p)); reflexivity.
Qed.

End ScriptFacts.

(** ** Python values *)

Module PyFacts.
Import Py.

(** *** Comprehensions *)

Lemma getitem_ok (k : string) (d : value) :
  has_key k d = true -> exists v, getitem d k = Ok v.
Proof.
  destruct d; simpl; try discriminate.
  destruct (lookup k d); [eauto | discriminate].
Qed.

Lemma getitem_raise (k : string) (d : value) :
  has_key k d = false ->
  exists e, getitem d k = Raise e /\ (e = TypeError \/ e = KeyError k).
Proof.
  destruct d; simpl; intros H; eauto.
  destruct (lookup k d); [discriminate | eauto].
Qed.

(** A comprehension succeeds exactly on items that all carry the key,
    and then reads them in order. *)
Lemma field_of_each_ok (k : string) (items : list value) :
  forallb (has_key k) items = true ->
  exists vs, field_of_each k items = Ok vs
             /\ List.length vs = List.length items
             /\ forall i, (i < List.length items)%nat ->
                          getitem (nth i items VNone) k = Ok (nth i vs VNone).
Proof.
  induction items as [|d items IH]; simpl; intros H.
  - exists []. repeat split. intros i Hi. inversion Hi.
  - apply andb_true_iff in H as [Hd Hrest].
    destruct (getitem_ok k d Hd) as [v Hv].
    destruct (IH Hrest) as (vs & Hvs & Hlen & Hnth).
    exists (v :: vs). rewrite Hv, Hvs. simpl. repeat split.
    + now rewrite Hlen.
    + intros [|i] Hi; [assumption | apply Hnth; lia].
Qed.

Lemma field_of_each_raise (k : string) (items : list value) :
  forallb (has_key k) items = false ->
  exists e, field_of_each k items = Raise e /\ (e = TypeError \/ e = KeyError k).
Proof.
  induction items as [|d items IH]; simpl; intros H; [discriminate|].
  destruct (has_key k d) eqn:Hd.
  - destruct (getitem_ok k d Hd) as [v ->]. simpl in H.
    destruct (IH H) as (e & -> & He). simpl. eauto.
  - destruct (getitem_raise k d Hd) as (e & -> & He). simpl. eauto.
Qed.

Lemma forallb_record_ok (items : list value) :
  forallb record_ok items
  = forallb (has_key "Name") items && forallb (has_key "AvgMs") items.
Proof.
  induction items as [|d items IH]; [reflexivity|].
  cbn [forallb]. rewrite IH. unfold record_ok.
  destruct (has_key "Name" d), (has_key "AvgMs" d),
    (forallb (has_key "Name") items), (forallb (has_key "AvgMs") items); reflexivity.
Qed.

(** A document that is neither an array of records nor one of the two
    empty containers stops one of the two comprehensions. *)
Lemma extraction_fails (data : value) :
  array_of_records data = false ->
  empty_non_array data = false ->
  exists e,
    (e = TypeError \/ e = KeyError "Name" \/ e = KeyError "AvgMs")
    /\ match bind (iter data) (field_of_each "Name") with
       | Raise e' => e = e'
       | Ok _ => bind (iter data) (field_of_each "AvgMs") = Raise e
       end.
Proof.
  intros Harr Hempty.
  destruct data as [| b | z | f | s | items | d]; simpl in *;
    try (exists TypeError; split; [now left | reflexivity]).
  - destruct s as [|c s]; [discriminate|].
    exists TypeError. split; [now left | reflexivity].
  - rewrite forallb_record_ok in Harr.
    destruct (forallb (has_key "Name") items) eqn:HN.
    + destruct (field_of_each_ok "Name" items HN) as (names & -> & _).
      simpl in Harr.
      destruct (field_of_each_raise "AvgMs" items Harr) as (e & -> & [He | He]);
        exists e; (split; [|reflexivity]); subst e; auto.
    + destruct (field_of_each_raise "Name" items HN) as (e & -> & [He | He]);
        exists e; (split; [|reflexivity]); subst e; auto.
  - destruct d as [|[k v] d]; [discriminate|].
    exists TypeError. split; [now left | reflexivity].
Qed.

(** Whatever a comprehension raises is a [TypeError] or the [KeyError]
    of its own key. *)
Lemma comprehension_raise (k : string) (data : value) (e : exn) :
  bind (iter data) (field_of_each k) = Raise e -> e = TypeError \/ e = KeyError k.
Proof.
  destruct (iter data) as [items|e'] eqn:Hi; simpl.
  - destruct (forallb (has_key k) items) eqn:H.
    + destruct (field_of_each_ok k items H) as (vs & -> & _). discriminate.
    + destruct (field_of_each_raise k items H) as (e' & -> & He). congruence.
  - destruct data; simpl in Hi; try discriminate; inversion Hi; subst;
      intros H; inversion H; auto.
Qed.

(** *** [max] *)

Lemma max_from_in (l : list value) :
  forall cur m, max_from cur l = Ok m -> m = cur \/ In m l.
Proof.
  induction l as [|item rest IH]; simpl; intros cur m H.
  - inversion H. now left.
  - destruct (gt item cur) as [b|e]; simpl in H; [|discriminate].
    destruct (IH _ _ H) as [-> | Hin]; [|now right; right].
    destruct b; [right; now left | now left].
Qed.

Lemma max_in (l : list value) (m : value) : max l = Ok m -> In m l.
Proof.
  destruct l as [|first rest]; simpl; [discriminate|].
  intros H. destruct (max_from_in _ _ _ H) as [-> | Hin]; auto.
Qed.

Lemma max_from_raise (l : list value) :
  forall cur e, max_from cur l = Raise e -> e = TypeError.
Proof.
  induction l as [|item rest IH]; simpl; intros cur e H; [discriminate|].
  unfold gt in H.
  destruct (num_of item), (num_of cur); simpl in H; try congruence.
  eapply IH; eassumption.
Qed.

(** [max] raises [ValueError] on the empty sequence and on nothing
    else. *)
Lemma max_raise (l : list value) (e : exn) :
  max l = Raise e -> (l = [] /\ e = ValueError) \/ (l <> [] /\ e = TypeError).
Proof.
  destruct l as [|first rest]; simpl; intros H.
  - left. split; congruence.
  - right. split; [discriminate | eapply max_from_raise; eassumption].
Qed.

Lemma finite_is_number (v : value) :
  finite_number v = true -> exists n, num_of v = Some n.
Proof.
  unfold finite_number. destruct (num_of v); [eauto | discriminate].
Qed.

Lemma max_from_numbers (l : list value) :
  forall cur, Forall (fun v => finite_number v = true) (cur :: l) ->
              exists m, max_from cur l = Ok m.
Proof.
  induction l as [|item rest IH]; simpl; intros cur H; [eauto|].
  inversion H as [|? ? Hc Hl]; subst. inversion Hl as [|? ? Hi Hr]; subst.
  unfold gt.
  destruct (finite_is_number _ Hc) as [nc ->].
  destruct (finite_is_number _ Hi) as [ni ->]. simpl.
  apply IH. constructor; [|assumption]. now destruct (num_gt ni nc).
Qed.

(** *** Arithmetic and formatting on finite numbers *)

Lemma to_float_no_value_error (n : num) (e : exn) :
  to_float n = Raise e -> e = OverflowError.
Proof.
  destruct n; simpl; [|discriminate].
  unfold float_of_int. destruct (binary_normalize prec emax z 0 false); congruence.
Qed.

Lemma finite_float (v : value) :
  finite_number v = true ->
  exists n, num_of v = Some n /\ to_float n = Ok (float_value v)
            /\ match float_value v with
               | S754_finite _ _ _ | S754_zero _ => True
               | _ => False
               end.
Proof.
  unfold finite_number, float_value.
  destruct (num_of v) as [n|]; [|discriminate].
  destruct (to_float n) as [[| | |]|] eqn:E; try discriminate;
    intros _; exists n; repeat split; assumption.
Qed.

Lemma mul_percent (m : value) :
  finite_number m = true ->
  mul m (VFloat one_percent)
  = Ok (VFloat (SFmul prec emax (float_value m) one_percent)).
Proof.
  intros H. destruct (finite_float m H) as (n & Hn & Hf & _).
  unfold mul. rewrite Hn. cbn [num_of]. unfold num_mul.
  destruct n; rewrite Hf; reflexivity.
Qed.

Lemma add_float (v : value) (f : spec_float) :
  finite_number v = true ->
  add v (VFloat f) = Ok (VFloat (SFadd prec emax (float_value v) f)).
Proof.
  intros H. destruct (finite_float v H) as (n & Hn & Hf & _).
  unfold add. rewrite Hn. cbn [num_of]. unfold num_add.
  destruct n; rewrite Hf; reflexivity.
Qed.

Lemma format_finite (v : value) :
  finite_number v = true -> format_0f v = Ok (format_float_0f (float_value v)).
Proof.
  intros H. destruct (finite_float v H) as (n & Hn & Hf & _).
  unfold format_0f. rewrite Hn, Hf. reflexivity.
Qed.

(** *** Integer texts *)

Lemma uint_digits (u : Decimal.uint) : all_digits (NilEmpty.string_of_uint u) = true.
Proof. induction u; simpl; try assumption; reflexivity. Qed.

Lemma uint_not_empty (u : Decimal.uint) :
  u <> Decimal.Nil -> NilEmpty.string_of_uint u <> "".
Proof. destruct u; simpl; congruence. Qed.

Lemma digits_run (n : Z) : digit_run (digits n) = true.
Proof.
  unfold digit_run, digits. rewrite uint_digits, andb_true_r.
  apply negb_true_iff, String.eqb_neq, uint_not_empty.
  destruct (Z.to_N n); simpl; [discriminate | apply DecimalPos.Unsigned.to_uint_nonnil].
Qed.

Lemma digit_run_no_sign (s : string) :
  digit_run s = true -> PyStr.startswith "-" s = false.
Proof.
  unfold digit_run. intros H. apply andb_true_iff in H as [_ H].
  destruct s as [|c s]; [reflexivity|]. simpl in H |- *.
  apply andb_true_iff in H as [Hc _].
  destruct (Ascii.eqb c "-") eqn:E; [|reflexivity].
  apply Ascii.eqb_eq in E. subst c. discriminate.
Qed.

Lemma signed_integer_text (s : bool) (body : string) :
  digit_run body = true -> integer_text (signed s body) = true.
Proof.
  intros H. unfold integer_text, signed. destruct s.
  - simpl. exact H.
  - now rewrite (digit_run_no_sign _ H).
Qed.

(** A finite float formats as an integer text. *)
Lemma format_float_integer (f : spec_float) :
  match f with S754_finite _ _ _ | S754_zero _ => True | _ => False end ->
  integer_text (format_float_0f f) = true.
Proof.
  destruct f as [s | s | | s m e]; simpl; intros H; try contradiction.
  - now destruct s.
  - apply signed_integer_text, digits_run.
Qed.

(** [round_half_even m d] is an integer nearest to [m / d]. *)
Lemma round_half_even_nearest (m d : Z) :
  0 < d -> 2 * Z.abs (round_half_even m d * d - m) <= d.
Proof.
  intros Hd. unfold round_half_even.
  pose proof (Z.div_mod m d ltac:(lia)) as Hm.
  pose proof (Z.mod_pos_bound m d Hd) as Hr.
  set (q := m / d) in *. set (r := m mod d) in *.
  assert (Hq : q * d - m = - r) by lia.
  assert (Hq1 : (q + 1) * d - m = d - r)
    by (rewrite Z.mul_add_distr_r, Z.mul_1_l; lia).
  clearbody q r. clear Hm.
  destruct (Z.compare_spec (2 * r) d) as [E | E | E].
  - destruct (Z.even q); rewrite ?Hq, ?Hq1; lia.
  - rewrite Hq. lia.
  - rewrite Hq1. lia.
Qed.

End PyFacts.

(** ** Bars and their colors *)

Lemma make_bars_length (cs : list string) (ys ws : list Py.value) :
  List.length ys = List.length ws ->
  forall k, List.length (Mpl.make_bars cs k ys ws) = List.length ys.
Proof.
  revert ws; induction ys as [|y ys IH]; intros [|x ws] H k; simpl in *;
    try discriminate; [reflexivity|].
  f_equal. apply IH. now inversion H.
Qed.

Lemma make_bars_nth (cs : list string) (ys ws : list Py.value) :
  List.length ys = List.length ws ->
  forall k i d, (i < List.length ys)%nat ->
    nth i (Mpl.make_bars cs k ys ws) d
    = Mpl.mkBar (k + i) (nth i ys Py.VNone) (nth i ws Py.VNone)
                (Mpl.cycle_color cs (k + i)).
Proof.
  revert ws; induction ys as [|y ys IH]; intros [|x ws] H k i d Hi; simpl in *;
    try discriminate; try lia.
  destruct i as [|i].
  - now rewrite Nat.add_0_r.
  - rewrite IH by (try lia; now inversion H). now rewrite Nat.add_succ_r.
Qed.

(** Slicing the palette to the number of bars and cycling through the
    slice is the same as cycling through the four colors. *)
Lemma sliced_palette_cycle (n i : nat) :
  (i < n)%nat ->
  Mpl.cycle_color (firstn n palette) i = nth (Nat.modulo i 4) palette "none".
Proof.
  intros Hi.
  destruct (Nat.le_gt_cases 4 n) as [Hn | Hn].
  - rewrite firstn_all2 by exact Hn. reflexivity.
  - do 4 (destruct n as [|n]; [repeat (destruct i as [|i]; try lia; try reflexivity)|]).
    lia.
Qed.

(** ** Annotations on finite numbers *)

Lemma annotation_finite (avgs : list Py.value) (m v : Py.value) (i : nat) :
  Py.max avgs = Py.Ok m ->
  Py.finite_number m = true ->
  Py.finite_number v = true ->
  annotation avgs i v = Py.Ok (label_at m i v).
Proof.
  intros Hmax Hm Hv. unfold annotation. rewrite Hmax. cbn [Py.bind].
  rewrite (PyFacts.mul_percent m Hm). cbn [Py.bind].
  rewrite (PyFacts.add_float v _ Hv). cbn [Py.bind].
  rewrite (PyFacts.format_finite v Hv). reflexivity.
Qed.

Lemma annotations_finite (avgs : list Py.value) (m : Py.value) (l : list Py.value) :
  Py.max avgs = Py.Ok m ->
  Py.finite_number m = true ->
  Forall (fun v => Py.finite_number v = true) l ->
  forall i, annotations avgs i l = (map_enumerate (label_at m) i l, None).
Proof.
  intros Hmax Hm. induction 1 as [|v l Hv _ IH]; intros i; [reflexivity|].
  cbn [annotations map_enumerate].
  rewrite (annotation_finite avgs m v i Hmax Hm Hv), IH. reflexivity.
Qed.

Lemma map_enumerate_length {A B} (f : nat -> A -> B) (l : list A) :
  forall k, List.length (map_enumerate f k l) = List.length l.
Proof. induction l as [|v l IH]; intros k; simpl; [reflexivity | now rewrite IH]. Qed.

Lemma map_enumerate_nth {A B} (f : nat -> A -> B) (l : list A) (da : A) (db : B) :
  forall k i, (i < List.length l)%nat ->
              nth i (map_enumerate f k l) db = f (k + i)%nat (nth i l da).
Proof.
  induction l as [|v l IH]; intros k i Hi; simpl in *; [lia|].
  destruct i as [|i].
  - now rewrite Nat.add_0_r.
  - rewrite IH by lia. now rewrite Nat.add_succ_r.
Qed.

(** The annotation of a bar never raises the [ValueError] of [max] on
    an empty sequence: inside the loop the sequence has an item. *)
Lemma annotation_raise (avgs : list Py.value) (i : nat) (v : Py.value) (e : Py.exn) :
  avgs <> [] ->
  annotation avgs i v = Py.Raise e -> e = Py.TypeError \/ e = Py.OverflowError.
Proof.
  intros Hne. unfold annotation.
  destruct (Py.max avgs) as [m|e0] eqn:Hmax; cbn [Py.bind].
  - unfold Py.mul. destruct (Py.num_of m) as [nm|]; cbn [Py.num_of];
      [|intros H; inversion H; now left].
    destruct (Py.num_mul nm (Py.NFloat Py.one_percent)) as [r|e1] eqn:Hmul; cbn [Py.bind].
    + unfold Py.add. destruct (Py.num_of v) as [nv|] eqn:Hv;
        [|intros H; inversion H; now left].
      assert (Hr : exists nr, Py.num_of match r with
                                         | Py.NInt z => Py.VInt z
                                         | Py.NFloat f => Py.VFloat f
                                         end = Some nr)
        by (destruct r; simpl; eauto).
      destruct Hr as [nr ->].
      destruct (Py.num_add nv nr) as [x|e2] eqn:Hadd; cbn [Py.bind].
      * unfold Py.format_0f. rewrite Hv.
        destruct (Py.to_float nv) as [f|e3] eqn:Hf; cbn [Py.bind]; [discriminate|].
        intros H; inversion H; subst. right.
        eapply PyFacts.to_float_no_value_error; eassumption.
      * intros H; inversion H; subst. right.
        unfold Py.num_add in Hadd.
        destruct nv as [a|a], nr as [b|b]; try discriminate;
          cbn [Py.to_float Py.bind] in Hadd;
          repeat match type of Hadd with
                 | context [Py.float_of_int ?z] =>
                     let E := fresh in
                     destruct (Py.float_of_int z) eqn:E; cbn [Py.bind] in Hadd;
                     [|inversion Hadd; subst;
                       apply (PyFacts.to_float_no_value_error (Py.NInt z)); exact E]
                 end; discriminate.
    + intros H; inversion H; subst. right.
      unfold Py.num_mul in Hmul.
      destruct nm as [a|a]; cbn [Py.to_float Py.bind] in Hmul; [|discriminate].
      destruct (Py.float_of_int a) eqn:E; cbn [Py.bind] in Hmul; [discriminate|].
      inversion Hmul; subst.
      apply (PyFacts.to_float_no_value_error (Py.NInt a)); exact E.
  - intros H; inversion H; subst.
    destruct (PyFacts.max_raise _ _ Hmax) as [[Hnil _] | [_ ->]]; [contradiction | now left].
Qed.

Lemma annotations_raise (avgs l : list Py.value) :
  avgs <> [] ->
  forall i e, snd (annotations avgs i l) = Some e ->
              e = Py.TypeError \/ e = Py.OverflowError.
Proof.
  intros Hne. induction l as [|v l IH]; intros i e; cbn [annotations].
  - discriminate.
  - destruct (annotation avgs i v) as [t|e0] eqn:Ha.
    + specialize (IH (S i) e). destruct (annotations avgs (S i) l) as [ts r].
      exact IH.
    + cbn [snd]. intros H; inversion H; subst.
      eapply annotation_raise; eassumption.
Qed.

(** On the empty sequence the loop body is not entered at all. *)
Lemma annotations_nil (avgs : list Py.value) (i : nat) :
  annotations avgs i [] = ([], None).
Proof. reflexivity. Qed.

(** ** The run as a whole *)

Lemma has_arg (w : World) :
  (2 <= List.length (argv w))%nat -> (Z.of_nat (List.length (argv w)) <? 2) = false.
Proof. intros H. apply Z.ltb_ge. lia. Qed.

Lemma no_arg (w : World) :
  (List.length (argv w) < 2)%nat -> (Z.of_nat (List.length (argv w)) <? 2) = true.
Proof. intros H. apply Z.ltb_lt. lia. Qed.

(** A comprehension over an array reads the field of every item, in
    order. *)
Lemma field_of_each_spec (k : string) (items : list Py.value) :
  forall vs, Py.field_of_each k items = Py.Ok vs ->
             List.length vs = List.length items
             /\ forall i, (i < List.length items)%nat ->
                          Py.getitem (nth i items Py.VNone) k = Py.Ok (nth i vs Py.VNone).
Proof.
  intros vs H.
  destruct (forallb (Py.has_key k) items) eqn:E.
  - destruct (PyFacts.field_of_each_ok k items E) as (vs' & Hvs & Hlen & Hnth).
    rewrite Hvs in H. inversion H; subst. now split.
  - destruct (PyFacts.field_of_each_raise k items E) as (e & He & _). congruence.
Qed.

Lemma records_extract (items : list Py.value) :
  forallb Py.record_ok items = true ->
  exists names avgs,
    Py.field_of_each "Name" items = Py.Ok names
    /\ Py.field_of_each "AvgMs" items = Py.Ok avgs
    /\ List.length names = List.length items
    /\ List.length avgs = List.length items
    /\ forall i, (i < List.length items)%nat ->
         Py.getitem (nth i items Py.VNone) "Name" = Py.Ok (nth i names Py.VNone)
         /\ Py.getitem (nth i items Py.VNone) "AvgMs" = Py.Ok (nth i avgs Py.VNone).
Proof.
  intros H. rewrite PyFacts.forallb_record_ok in H.
  apply andb_true_iff in H as [HN HA].
  destruct (PyFacts.field_of_each_ok _ _ HN) as (names & Hn & Hln & Hnn).
  destruct (PyFacts.field_of_each_ok _ _ HA) as (avgs & Ha & Hla & Hna).
  exists names, avgs. repeat split; auto.
Qed.

Lemma finite_records (items : list Py.value) :
  forall avgs, Py.field_of_each "AvgMs" items = Py.Ok avgs ->
               forallb Py.finite_record items = true ->
               Forall (fun v => Py.finite_number v = true) avgs.
Proof.
  induction items as [|d items IH]; simpl; intros avgs H Hf.
  - inversion H. constructor.
  - apply andb_true_iff in Hf as [Hd Hrest]. unfold Py.finite_record in Hd.
    destruct (Py.getitem d "AvgMs") as [v|]; [|discriminate]. simpl in H.
    destruct (Py.field_of_each "AvgMs" items) as [vs|]; [|discriminate].
    inversion H; subst. constructor; [assumption | now apply IH].
Qed.

Section RunFacts.

Variable json_loads : string -> option Py.value.
Variable w : World.

Let p := target w.

(** Every run has one of six shapes. *)
Lemma run_cases :
  run json_loads w
  = mkOutcome 2 None ["Usage: plot_performance.py <baseline.json>"] [] Mpl.blank
  \/ run json_loads w
     = mkOutcome 2 None ["File not found: " ++ Pathlib.str p] [] Mpl.blank
  \/ (exists e, run json_loads w = failed e Mpl.blank /\ e <> Py.ValueError)
  \/ (exists names avgs ts e,
         run json_loads w = failed e (chart names avgs ts false)
         /\ (e = Py.TypeError \/ e = Py.OverflowError))
  \/ (exists names avgs ts,
         run json_loads w = failed Py.OSError (chart names avgs ts true))
  \/ (exists names avgs ts,
         run json_loads w
         = mkOutcome 0 None ["Wrote " ++ Pathlib.str (out_path p)]
                     [(out_path p, chart names avgs ts true)]
                     (chart names avgs ts true)).
Proof.
  destruct (Z.of_nat (List.length (argv w)) <? 2) eqn:Hlen.
  { left. now apply run_usage. }
  destruct (stat w p) as [| | | |text] eqn:Hstat.
  { right; left. now apply run_not_found. }
  1-3: right; right; left; eexists; split;
    [apply run_read_fails; fold p; try assumption; rewrite Hstat; discriminate
    | fold p; rewrite Hstat; discriminate].
  destruct (json_loads text) as [data|] eqn:Hload.
  2:{ right; right; left. exists Py.JSONDecodeError. split; [|discriminate].
      apply (run_extract_fails json_loads w text); try assumption.
      now rewrite Hload. }
  destruct (Py.bind (Py.iter data) (Py.field_of_each "Name")) as [names|e] eqn:Hn.
  2:{ right; right; left. exists e. split.
      - apply (run_extract_fails json_loads w text); try assumption.
        now rewrite Hload, Hn.
      - destruct (PyFacts.comprehension_raise _ _ _ Hn); subst; discriminate. }
  destruct (Py.bind (Py.iter data) (Py.field_of_each "AvgMs")) as [avgs|e] eqn:Ha.
  2:{ right; right; left. exists e. split.
      - apply (run_extract_fails json_loads w text); try assumption.
        now rewrite Hload, Hn.
      - destruct (PyFacts.comprehension_raise _ _ _ Ha); subst; discriminate. }
  rewrite (run_plot json_loads w text data names avgs Hlen Hstat Hload Hn Ha).
  cbv zeta. fold p.
  destruct (snd (annotations avgs 0 avgs)) as [e|] eqn:Hs.
  - right; right; right; left. exists names, avgs, (fst (annotations avgs 0 avgs)), e.
    split; [reflexivity|].
    apply (annotations_raise avgs avgs) with (i := 0%nat); [|assumption].
    intros ->. discriminate.
  - destruct (writable w (out_path p)).
    + do 5 right. exists names, avgs, (fst (annotations avgs 0 avgs)). reflexivity.
    + do 4 right. left. exists names, avgs, (fst (annotations avgs 0 avgs)). reflexivity.
Qed.

(** Under a successful extraction the figure carries the bars of
    [barh(names, avgs, color=palette[:len(names)])], however the run
    goes on. *)
Lemma run_bars (text : string) (data : Py.value) (names avgs : list Py.value) :
  (Z.of_nat (List.length (argv w)) <? 2) = false ->
  stat w p = Regular text ->
  json_loads text = Some data ->
  Py.bind (Py.iter data) (Py.field_of_each "Name") = Py.Ok names ->
  Py.bind (Py.iter data) (Py.field_of_each "AvgMs") = Py.Ok avgs ->
  Mpl.bars (figure (run json_loads w))
  = Mpl.make_bars (firstn (List.length names) palette) 0 names avgs
  /\ Mpl.texts (figure (run json_loads w)) = fst (annotations avgs 0 avgs).
Proof.
  intros H1 H2 H3 H4 H5.
  rewrite (run_plot json_loads w text data names avgs H1 H2 H3 H4 H5). cbv zeta.
  destruct (snd (annotations avgs 0 avgs)); [split; reflexivity|].
  destruct (writable w _); split; reflexivity.
Qed.

End RunFacts.

(** ** The order of plain numbers *)

Module OrderFacts.
Import Py.

Lemma digits2_bounds (m : positive) :
  2 ^ (Zpos (digits2_pos m) - 1) <= Zpos m < 2 ^ Zpos (digits2_pos m).
Proof.
  induction m as [m IH | m IH |]; cbn [digits2_pos].
  - rewrite Pos2Z.inj_succ.
    replace (Z.succ (Zpos (digits2_pos m)) - 1) with (Z.succ (Zpos (digits2_pos m) - 1)) by lia.
    rewrite !Z.pow_succ_r by lia. lia.
  - rewrite Pos2Z.inj_succ.
    replace (Z.succ (Zpos (digits2_pos m)) - 1) with (Z.succ (Zpos (digits2_pos m) - 1)) by lia.
    rewrite !Z.pow_succ_r by lia. lia.
  - cbn. lia.
Qed.

(** A canonical mantissa has at most 53 bits, its exponent is at
    least [-1074], and above that exponent it has exactly 53 bits. *)
Lemma canonical_bounds (m : positive) (e : Z) :
  canonical_mantissa prec emax m e = true ->
  Zpos m < 2 ^ 53 /\ - 1074 <= e /\ (- 1074 < e -> 2 ^ 52 <= Zpos m).
Proof.
  unfold canonical_mantissa, fexp, SpecFloat.emin, prec, emax. intros H.
  apply Z.eqb_eq in H.
  pose proof (digits2_bounds m) as [Hlo Hhi].
  set (d := Zpos (digits2_pos m)) in *.
  assert (Hd : d <= 53) by lia.
  repeat split.
  - apply Z.lt_le_trans with (2 ^ d); [exact Hhi|].
    apply Z.pow_le_mono_r; lia.
  - lia.
  - intros He. assert (d = 53) by lia. subst d.
    replace (2 ^ 52) with (2 ^ (Zpos (digits2_pos m) - 1)); [exact Hlo|].
    now replace (Zpos (digits2_pos m)) with 53 by lia.
Qed.

Lemma pow_units_pos (e : Z) : 0 <= e -> 0 < 2 ^ e.
Proof. intros H. apply Z.pow_pos_nonneg; lia. Qed.

Lemma compare_scaled (a b c : Z) : 0 < c -> (a * c ?= b * c) = (a ?= b).
Proof. intros H. symmetry. apply Zmult_compare_compat_r. lia. Qed.

Lemma scaled_lt (ma mb K D P : Z) :
  0 < P -> 0 < K -> 2 <= D -> ma < P * 2 -> P <= mb -> ma * K < mb * (K * D).
Proof.
  intros HP HK HD Hma Hmb.
  apply Z.lt_le_trans with (m := P * 2 * K).
  - apply Z.mul_lt_mono_pos_r; assumption.
  - replace (P * 2 * K) with (P * (K * 2)) by lia.
    apply Z.mul_le_mono_nonneg; try lia.
    apply Z.mul_le_mono_nonneg_l; lia.
Qed.

(** Among canonical mantissas, the order of the values is the order
    of the exponents, then of the mantissas. *)
Lemma canonical_compare (m1 m2 : positive) (e1 e2 : Z) :
  canonical_mantissa prec emax m1 e1 = true ->
  canonical_mantissa prec emax m2 e2 = true ->
  match e1 ?= e2 with
  | Lt => Lt
  | Gt => Gt
  | Eq => Pos.compare_cont Eq m1 m2
  end
  = (Zpos m1 * 2 ^ (e1 + 1074) ?= Zpos m2 * 2 ^ (e2 + 1074)).
Proof.
  intros H1 H2.
  destruct (canonical_bounds m1 e1 H1) as (Hm1 & He1 & Hn1).
  destruct (canonical_bounds m2 e2 H2) as (Hm2 & He2 & Hn2).
  assert (Hstep : forall ma mb ea eb,
             Zpos ma < 2 ^ 53 -> - 1074 <= ea -> ea < eb -> 2 ^ 52 <= Zpos mb ->
             Zpos ma * 2 ^ (ea + 1074) < Zpos mb * 2 ^ (eb + 1074)).
  { intros ma mb ea eb Hma Hea Hlt Hmb.
    replace (eb + 1074) with ((ea + 1074) + (eb - ea)) by lia.
    rewrite (Z.pow_add_r 2 (ea + 1074) (eb - ea)) by lia.
    apply (scaled_lt _ _ _ _ (2 ^ 52)); try assumption.
    - reflexivity.
    - apply pow_units_pos. lia.
    - change 2 with (2 ^ 1) at 1. apply Z.pow_le_mono_r; lia. }
  destruct (Z.compare_spec e1 e2) as [E | E | E].
  - subst e2. rewrite compare_scaled by (apply pow_units_pos; lia).
    reflexivity.
  - symmetry. apply Z.compare_lt_iff. apply Hstep; auto. apply Hn2. lia.
  - symmetry. apply Z.compare_gt_iff. apply Hstep; auto. apply Hn1. lia.
Qed.

(** [SFcompare] on two finite or zero canonical floats is the
    comparison of their values. *)
Lemma float_compare (x y : spec_float) :
  finite_number (VFloat x) = true -> valid_binary prec emax x = true ->
  finite_number (VFloat y) = true -> valid_binary prec emax y = true ->
  SFcompare x y = Some (units (VFloat x) ?= units (VFloat y)).
Proof.
  intros Fx Vx Fy Vy.
  destruct x as [sx | sx | | sx mx ex]; try discriminate;
    destruct y as [sy | sy | | sy my ey]; try discriminate;
    cbn [SFcompare units valid_binary] in *.
  - reflexivity.
  - unfold bounded in Vy. apply andb_true_iff in Vy as [Cy _].
    destruct (canonical_bounds my ey Cy) as (_ & Hey & _).
    pose proof (pow_units_pos (ey + 1074) ltac:(lia)).
    f_equal. symmetry. destruct sy; cbn [cond_Zopp].
    + apply Z.compare_gt_iff. nia.
    + apply Z.compare_lt_iff. nia.
  - unfold bounded in Vx. apply andb_true_iff in Vx as [Cx _].
    destruct (canonical_bounds mx ex Cx) as (_ & Hex & _).
    pose proof (pow_units_pos (ex + 1074) ltac:(lia)).
    f_equal. symmetry. destruct sx; cbn [cond_Zopp].
    + apply Z.compare_lt_iff. nia.
    + apply Z.compare_gt_iff. nia.
  - unfold bounded in Vx, Vy.
    apply andb_true_iff in Vx as [Cx _]. apply andb_true_iff in Vy as [Cy _].
    destruct (canonical_bounds mx ex Cx) as (_ & Hex & _).
    destruct (canonical_bounds my ey Cy) as (_ & Hey & _).
    pose proof (pow_units_pos (ex + 1074) ltac:(lia)).
    pose proof (pow_units_pos (ey + 1074) ltac:(lia)).
    f_equal. destruct sx, sy; cbn [cond_Zopp].
    + change (Z.opp (Zpos mx)) with (- Zpos mx).
      change (Z.opp (Zpos my)) with (- Zpos my).
      rewrite !Z.mul_opp_l, Z.compare_opp.
      rewrite <- (canonical_compare my mx ey ex Cy Cx).
      rewrite (Z.compare_antisym ex ey).
      change (Pos.compare_cont Eq my mx) with (Pos.compare my mx).
      rewrite (Pos.compare_antisym mx my).
      change (Pos.compare_cont Eq mx my) with (Pos.compare mx my).
      destruct (ex ?= ey); reflexivity.
    + symmetry. apply Z.compare_lt_iff. nia.
    + symmetry. apply Z.compare_gt_iff. nia.
    + apply canonical_compare; assumption.
Qed.

(** The comparison of an int with a float is exact. *)
Lemma int_float_compare (z : Z) (f : spec_float) :
  finite_number (VFloat f) = true -> valid_binary prec emax f = true ->
  compare_int_float z f = Some (units (VInt z) ?= units (VFloat f)).
Proof.
  intros Ff Vf.
  destruct f as [s | s | | s m e]; try discriminate; cbn [compare_int_float units].
  - f_equal. change 0 with (0 * 2 ^ 1074) at 2.
    rewrite compare_scaled; reflexivity.
  - cbn [valid_binary] in Vf. unfold bounded in Vf.
    apply andb_true_iff in Vf as [Cf _].
    destruct (canonical_bounds m e Cf) as (_ & He & _).
    f_equal. cbv zeta. destruct (0 <=? e) eqn:E.
    + apply Z.leb_le in E. rewrite (Z.pow_add_r 2 e 1074) by lia.
      rewrite Z.mul_assoc, compare_scaled; reflexivity.
    + apply Z.leb_gt in E.
      replace 1074 with (- e + (e + 1074)) at 1 by lia.
      rewrite (Z.pow_add_r 2 (- e) (e + 1074)) by lia.
      rewrite Z.mul_assoc, compare_scaled; [reflexivity|].
      apply pow_units_pos. lia.
Qed.

Lemma plain_cases (v : value) :
  plain_number v = true ->
  (exists z, v = VInt z)
  \/ (exists f, v = VFloat f /\ finite_number (VFloat f) = true
                 /\ valid_binary prec emax f = true).
Proof.
  unfold plain_number. intros H. apply andb_true_iff in H as [Hf Hv].
  destruct v; try discriminate; eauto.
Qed.

(** [a > b] on plain numbers is the order of their values. *)
Lemma plain_gt (a b : value) :
  plain_number a = true -> plain_number b = true ->
  gt a b = Ok (units b <? units a).
Proof.
  intros Ha Hb.
  assert (Hcmp : forall x y, (match x ?= y with Gt => true | _ => false end)
                             = (y <? x)).
  { intros x y. unfold Z.ltb. rewrite (Z.compare_antisym x y).
    destruct (x ?= y); reflexivity. }
  destruct (plain_cases a Ha) as [[x ->] | (x & -> & Fx & Vx)];
    destruct (plain_cases b Hb) as [[y ->] | (y & -> & Fy & Vy)];
    unfold gt, num_gt; cbn [num_of num_compare].
  - rewrite <- Hcmp. cbn [units].
    rewrite compare_scaled by reflexivity. reflexivity.
  - rewrite (int_float_compare x y Fy Vy), Hcmp. reflexivity.
  - rewrite (int_float_compare y x Fx Vx). cbn [option_map].
    rewrite <- Z.compare_antisym, Hcmp. reflexivity.
  - rewrite (float_compare x y Fx Vx Fy Vy), Hcmp. reflexivity.
Qed.

(** On plain numbers [max] succeeds, returns one of the items, and no
    item has a greater value. *)
Lemma max_from_greatest (l : list value) :
  forall cur,
    Forall (fun v => plain_number v = true) (cur :: l) ->
    exists m, max_from cur l = Ok m
              /\ In m (cur :: l)
              /\ forall v, In v (cur :: l) -> units v <= units m.
Proof.
  induction l as [|item rest IH]; intros cur Hall.
  - exists cur. cbn. repeat split; auto. intros v [<- | []]. lia.
  - inversion Hall as [|? ? Hc Hl]; subst. inversion Hl as [|? ? Hi Hr]; subst.
    cbn [max_from]. rewrite (plain_gt item cur Hi Hc). cbn [bind].
    destruct (units cur <? units item) eqn:E.
    + apply Z.ltb_lt in E.
      destruct (IH item) as (m & Hm & Hin & Hle); [now constructor|].
      exists m. split; [exact Hm|]. split.
      * destruct Hin as [<- | Hin]; [right; now left | right; now right].
      * intros v [<- | [<- | Hv]].
        -- specialize (Hle item (or_introl eq_refl)). lia.
        -- apply Hle. now left.
        -- apply Hle. now right.
    + apply Z.ltb_ge in E.
      destruct (IH cur) as (m & Hm & Hin & Hle); [now constructor|].
      exists m. split; [exact Hm|]. split.
      * destruct Hin as [<- | Hin]; [now left | right; now right].
      * intros v [<- | [<- | Hv]].
        -- apply Hle. now left.
        -- specialize (Hle cur (or_introl eq_refl)). lia.
        -- apply Hle. now right.
Qed.

Lemma max_greatest (l : list value) :
  l <> [] ->
  Forall (fun v => plain_number v = true) l ->
  exists m, max l = Ok m /\ In m l /\ forall v, In v l -> units v <= units m.
Proof.
  destruct l as [|first rest]; [congruence|]. intros _ H.
  now apply max_from_greatest.
Qed.

Lemma plain_is_finite (v : value) : plain_number v = true -> finite_number v = true.
Proof. unfold plain_number. intros H. now apply andb_true_iff in H as [H _]. Qed.

(** *** Plain records *)

Lemma plain_record_ok (d : value) :
  plain_record d = true -> record_ok d = true /\ finite_record d = true.
Proof.
  unfold plain_record, record_ok, finite_record, has_key.
  destruct d; cbn [getitem]; try discriminate.
  destruct (lookup "Name" d) as [nm|]; [|discriminate].
  destruct nm; try discriminate.
  destruct (lookup "AvgMs" d) as [v|]; [|discriminate].
  intros H. split; [reflexivity | now apply plain_is_finite].
Qed.

Lemma plain_records_ok (items : list value) :
  forallb plain_record items = true ->
  forallb record_ok items = true /\ forallb finite_record items = true.
Proof.
  induction items as [|d items IH]; cbn [forallb]; [now split|].
  intros H. apply andb_true_iff in H as [Hd Hrest].
  destruct (plain_record_ok d Hd) as [-> ->]. now apply IH.
Qed.

(** The series of plain records: the names are strings, the averages
    plain numbers. *)
Lemma plain_series (items : list value) :
  forall names avgs,
    forallb plain_record items = true ->
    field_of_each "Name" items = Ok names ->
    field_of_each "AvgMs" items = Ok avgs ->
    (exists ss, names = map VStr ss)
    /\ Forall (fun v => plain_number v = true) avgs.
Proof.
  induction items as [|d items IH]; cbn [forallb field_of_each]; intros names avgs H Hn Ha.
  - inversion Hn; inversion Ha; subst. split; [now exists [] | constructor].
  - apply andb_true_iff in H as [Hd Hrest]. unfold plain_record in Hd.
    destruct (getitem d "Name") as [nm|]; [|discriminate].
    destruct nm as [| | | |s| |]; try discriminate.
    destruct (getitem d "AvgMs") as [v|]; [|discriminate].
    cbn [bind] in Hn, Ha.
    destruct (field_of_each "Name" items) as [ns|]; [|discriminate].
    destruct (field_of_each "AvgMs" items) as [vs|]; [|discriminate].
    inversion Hn; inversion Ha; subst.
    destruct (IH ns vs Hrest eq_refl eq_refl) as [[ss ->] Hall].
    split; [now exists (s :: ss) | now constructor].
Qed.

End OrderFacts.

(** ** Rows on the categorical axis *)

Module RowFacts.
Import Mpl.

Lemma seen_false (x : string) (seen : list string) :
  ~ In x seen -> existsb (String.eqb x) seen = false.
Proof.
  intros H. destruct (existsb (String.eqb x) seen) eqn:E; [|reflexivity].
  apply existsb_exists in E as (y & Hy & Heq).
  apply String.eqb_eq in Heq. subst. contradiction.
Qed.

(** Labels that are all different become the categories in their own
    order. *)
Lemma categories_distinct (labels : list string) :
  forall seen, NoDup (seen ++ labels) -> categories seen labels = (seen ++ labels)%list.
Proof.
  induction labels as [|x rest IH]; intros seen H; cbn [categories].
  - now rewrite app_nil_r.
  - assert (Hx : ~ In x seen).
    { apply NoDup_remove_2 in H. intros Hin. apply H, in_or_app. now left. }
    rewrite (seen_false x seen Hx).
    rewrite IH; rewrite <- app_assoc; [reflexivity | exact H].
Qed.

Lemma first_index_nth (l : list string) :
  NoDup l ->
  forall i d, (i < List.length l)%nat -> first_index (nth i l d) l = i.
Proof.
  induction 1 as [|x l Hx Hnd IH]; intros i d Hi; [inversion Hi|].
  destruct i as [|i]; cbn [nth first_index].
  - now rewrite String.eqb_refl.
  - simpl in Hi.
    destruct (String.eqb x (nth i l d)) eqn:E.
    + apply String.eqb_eq in E. subst x. exfalso. apply Hx, nth_In. lia.
    + f_equal. apply IH. lia.
Qed.

(** With pairwise distinct labels bar [i] stands on row [i]. *)
Lemma rows_distinct (labels : list string) :
  NoDup labels ->
  List.length (rows labels) = List.length labels
  /\ forall i d, (i < List.length labels)%nat -> nth i (rows labels) d = i.
Proof.
  intros H. unfold rows. rewrite length_map. split; [reflexivity|].
  intros i d Hi.
  rewrite (categories_distinct labels [] H).
  change ([] ++ labels)%list with labels.
  set (f := fun x => first_index x labels).
  rewrite (nth_indep _ d (f "")) by (rewrite length_map; lia).
  rewrite (map_nth f labels "" i).
  now apply first_index_nth.
Qed.

End RowFacts.

(** ** Sample evaluations *)

Example out_path_samples :
  map (fun s => Pathlib.str (out_path (Pathlib.Path s)))
      ["x/baseline.json"; "baseline.json"; "/x.json"; "//a//b/"; "a/./b.tar.gz";
       ".bashrc"; "foo."; "a..b"; "..a"; ""]
  = ["x/plot-baseline.png"; "plot-baseline.png"; "/plot-x.png"; "//a/plot-b.png";
     "a/plot-b.tar.png"; "plot-.bashrc.png"; "plot-foo..png"; "plot-a..png";
     "plot-..png"; "plot-.png"].
Proof. reflexivity. Qed.

Example format_samples :
  map Py.format_0f
      [Py.VInt 123; Py.VBool true; Py.VInt 9007199254740993; Py.VInt (-7);
       Py.VFloat (S754_finite false 1 (-1));       (* 0.5 *)
       Py.VFloat (S754_finite false 3 (-1));       (* 1.5 *)
       Py.VFloat (S754_finite false 5 (-1));       (* 2.5 *)
       Py.VFloat (S754_finite false 8683503031523738 (-46));  (* 123.4 *)
       Py.VFloat (S754_zero true); Py.VFloat S754_nan; Py.VFloat (S754_infinity true)]
  = map Py.Ok ["123"; "1"; "9007199254740992"; "-7"; "0"; "2"; "2"; "123"; "-0";
               "nan"; "-inf"].
Proof. vm_compute. reflexivity. Qed.

Example max_samples :
  Py.max [Py.VInt 1; Py.VFloat (S754_finite false 4503599627370496 (-52))]
  = Py.Ok (Py.VInt 1)
  /\ Py.max [Py.VFloat (S754_finite false 4503599627370496 (-52)); Py.VInt 1]
     = Py.Ok (Py.VFloat (S754_finite false 4503599627370496 (-52)))
  /\ Py.max [Py.VInt 3; Py.VFloat (S754_finite false 5 (-1)); Py.VInt 7]
     = Py.Ok (Py.VInt 7)
  /\ Py.max [Py.VFloat (S754_finite false 4503599627370496 1); Py.VInt 9007199254740993]
     = Py.Ok (Py.VInt 9007199254740993)
  /\ Py.max [Py.VStr "a"; Py.VInt 1] = Py.Raise Py.TypeError
  /\ Py.max [] = Py.Raise Py.ValueError.
Proof. vm_compute. repeat split. Qed.

(** The run on [[{"Name":"A","AvgMs":10},{"Name":"B","AvgMs":20}]]:
    the first text sits at [10 + 20 * 0.01 = 10.2]. *)
Example run_two_records :
  let o := run sample_loads (world_with "x/baseline.json" two_records_text) in
  exit_code o = 0
  /\ printed o = ["Wrote x/plot-baseline.png"]
  /\ map fst (written o) = [Pathlib.Path "x/plot-baseline.png"]
  /\ Mpl.texts (figure o)
     = [Mpl.mkText (Py.VFloat (S754_finite false 5742089524897382 (-49))) 0
                   "10 ms" "center";
        Mpl.mkText (Py.VFloat (S754_finite false 5685794529555251 (-48))) 1
                   "20 ms" "center"].
Proof. vm_compute. repeat split. Qed.

(** On integers [max] is the largest of them. *)
Lemma max_from_ints (zs : list Z) :
  forall z, Py.max_from (Py.VInt z) (map Py.VInt zs)
            = Py.Ok (Py.VInt (fold_left Z.max zs z)).
Proof.
  induction zs as [|y zs IH]; intros z; [reflexivity|].
  cbn [map Py.max_from fold_left]. unfold Py.gt, Py.num_gt. cbn [Py.num_of Py.num_compare Py.bind].
  destruct (Z.compare_spec y z) as [E | E | E]; rewrite IH; repeat f_equal; lia.
Qed.

Lemma max_ints (z : Z) (zs : list Z) :
  Py.max (map Py.VInt (z :: zs)) = Py.Ok (Py.VInt (fold_left Z.max zs z)).
Proof. apply max_from_ints. Qed.

(* ================================================================= *)
(** * The claims *)


(** C2. On the empty array the run succeeds: it writes a chart without
    bars and without annotations and reports it. The loop body, and with
    it [max(avgs)], is not entered on an empty sequence; and no run at
    all ends in the [ValueError] of [max] on an empty sequence. *)
Theorem C2_empty_array :
  forall (json_loads : string -> option Py.value) (w : World) (text : string),
    (2 <= List.length (argv w))%nat ->
    stat w (target w) = Regular text ->
    json_loads text = Some (Py.VList []) ->
    writable w (out_path (target w)) = true ->
    run json_loads w
    = mkOutcome 0 None ["Wrote " ++ Pathlib.str (out_path (target w))]
                [(out_path (target w), chart [] [] [] true)] (chart [] [] [] true)
    /\ Mpl.bars (chart [] [] [] true) = []
    /\ Mpl.texts (chart [] [] [] true) = []
    /\ (forall st, for_enumerate (annotate []) 0 [] st = (Done tt, st))
    /\ (forall loads' w', uncaught (run loads' w') <> Some Py.ValueError).
Proof.
  intros json_loads w text Hlen Hstat Hload Hw.
  split; [|split; [|split; [|split]]]; try reflexivity.
  - rewrite (run_plot json_loads w text (Py.VList []) [] [] (has_arg w Hlen) Hstat Hload
               eq_refl eq_refl).
    cbn. now rewrite Hw.
  - intros loads' w'.
    destruct (run_cases loads' w')
      as [H | [H | [(e & H & He) | [(n & a & ts & e & H & He) | [(n & a & ts & H) | (n & a & ts & H)]]]]];
      rewrite H; cbn; try discriminate.
    + congruence.
    + destruct He; subst; discriminate.
Qed.

Lemma C2_empty_array_witness :
  exit_code (run sample_loads (world_with "x/baseline.json" "[]")) = 0
  /\ printed (run sample_loads (world_with "x/baseline.json" "[]"))
     = ["Wrote x/plot-baseline.png"].
Proof.
  destruct (C2_empty_array sample_loads (world_with "x/baseline.json" "[]") "[]")
    as [H _]; [cbn; lia | reflexivity | reflexivity | reflexivity |].
  rewrite H. split; reflexivity.
Defined.

(** C3. When the path argument names nothing that exists, the run prints
    ['File not found: ' + str(p)], exits with code 2 and writes nothing;
    the printed text parses back to the path that was tested. *)
Theorem C3_file_not_found :
  forall (json_loads : string -> option Py.value) (w : World),
    (2 <= List.length (argv w))%nat ->
    stat w (target w) = Absent ->
    run json_loads w
    = mkOutcome 2 None ["File not found: " ++ Pathlib.str (target w)] [] Mpl.blank
    /\ Pathlib.Path (Pathlib.str (target w)) = target w.
Proof.
  intros json_loads w Hlen Hstat. split.
  - apply run_not_found; [now apply has_arg | assumption].
  - apply PathlibFacts.parse_str, PathlibFacts.parse_path_wf.
Qed.

Lemma C3_file_not_found_witness :
  run sample_loads (world_absent "/tmp/does-not-exist.json")
  = mkOutcome 2 None ["File not found: /tmp/does-not-exist.json"] [] Mpl.blank.
Proof.
  destruct (C3_file_not_found sample_loads (world_absent "/tmp/does-not-exist.json"))
    as [H _]; [cbn; lia | reflexivity | exact H].
Defined.

(** C4. Without a path argument the run prints exactly the usage line,
    exits with code 2 and writes nothing. *)
Theorem C4_usage :
  forall (json_loads : string -> option Py.value) (w : World),
    (List.length (argv w) < 2)%nat ->
    run json_loads w
    = mkOutcome 2 None ["Usage: plot_performance.py <baseline.json>"] [] Mpl.blank.
Proof.
  intros json_loads w Hlen. apply run_usage. now apply no_arg.
Qed.

Lemma C4_usage_witness :
  run sample_loads world_no_arg
  = mkOutcome 2 None ["Usage: plot_performance.py <baseline.json>"] [] Mpl.blank.
Proof. apply C4_usage. cbn. lia. Defined.

(** C5. For an array of [n] records (a string [Name], a plain number
    [AvgMs]), bar [i] gets color [palette[i mod 4]] for every [i < n]:
    the four colors of the palette are distinct, and cycling through the
    slice [palette[:n]] that the script passes agrees with cycling
    through the palette. *)
Theorem C5_bar_colors :
  forall (json_loads : string -> option Py.value) (w : World)
         (text : string) (items : list Py.value),
    (2 <= List.length (argv w))%nat ->
    stat w (target w) = Regular text ->
    json_loads text = Some (Py.VList items) ->
    forallb Py.plain_record items = true ->
    let bs := Mpl.bars (figure (run json_loads w)) in
    List.length bs = List.length items
    /\ (forall i d, (i < List.length items)%nat ->
          Mpl.bar_color (nth i bs d) = nth (Nat.modulo i 4) palette "none")
    /\ NoDup palette
    /\ List.length palette = 4%nat.
Proof.
  intros json_loads w text items Hlen Hstat Hload Hplain bs.
  destruct (OrderFacts.plain_records_ok items Hplain) as [Hrec _].
  destruct (records_extract items Hrec) as (names & avgs & Hn & Ha & Hln & Hla & _).
  destruct (run_bars json_loads w text (Py.VList items) names avgs
              (has_arg w Hlen) Hstat Hload Hn Ha) as [Hbars _].
  subst bs. rewrite Hbars.
  assert (Hsame : List.length names = List.length avgs) by congruence.
  split; [|split; [|split]].
  - rewrite make_bars_length by assumption. exact Hln.
  - intros i d Hi.
    rewrite make_bars_nth by (try assumption; lia).
    cbn [Mpl.bar_color Nat.add]. apply sliced_palette_cycle. lia.
  - unfold palette. repeat constructor; cbn; intuition discriminate.
  - reflexivity.
Qed.

Lemma C5_bar_colors_witness :
  let bs := Mpl.bars (figure (run six_loads
                                  (world_with "x/baseline.json" six_records_text))) in
  List.length bs = 6%nat
  /\ (forall i d, (i < 6)%nat ->
        Mpl.bar_color (nth i bs d) = nth (Nat.modulo i 4) palette "none")
  /\ NoDup palette
  /\ List.length palette = 4%nat.
Proof.
  apply (C5_bar_colors six_loads (world_with "x/baseline.json" six_records_text)
           six_records_text six_records);
    [cbn; lia | reflexivity | reflexivity | vm_compute; reflexivity].
Defined.

(** C6, as stated, fails: two records of the same name give two bars
    on row 0 of the axis, while the annotation of the second one is
    placed at y = 1. *)
Lemma C6_counterexample :
  let o := run same_name_loads (world_with "x/baseline.json" same_name_text) in
  exit_code o = 0
  /\ map Mpl.bar_label (Mpl.bars (figure o)) = map Py.VStr ["A"; "A"]
  /\ Mpl.rows ["A"; "A"] = [0; 0]%nat
  /\ map Mpl.text_y (Mpl.texts (figure o)) = [0; 1]%nat
  /\ map Mpl.text_s (Mpl.texts (figure o)) = ["1 ms"; "2 ms"]
  /\ Mpl.text_y (nth 1 (Mpl.texts (figure o)) (Mpl.mkText Py.VNone 0 "" ""))
     <> nth 1 (Mpl.rows ["A"; "A"]) 0%nat.
Proof. vm_compute. repeat split. discriminate. Qed.

Lemma make_bars_labels (cs : list string) (ys ws : list Py.value) :
  List.length ys = List.length ws ->
  forall k, map Mpl.bar_label (Mpl.make_bars cs k ys ws) = ys.
Proof.
  revert ws; induction ys as [|y ys IH]; intros [|x ws] H k; simpl in *;
    try discriminate; [reflexivity|].
  f_equal. apply IH. now inversion H.
Qed.

(** C6, amended. For a non-empty array of records with string names
    and plain numbers as averages, [max(avgs)] is the greatest of the
    averages, and bar [i] gets one annotation: at x =
    [v_i + max(avgs) * 0.01] in binary64 arithmetic, at y = [i] with
    [va='center'], reading [v_i] formatted with ['.0f'] -- an integer
    text -- followed by [' ms']. When the names are pairwise distinct,
    bar [i] stands on row [i] of the axis, so that its annotation is
    centered on it. The value 123 gives ['123 ms']. *)
Theorem C6_annotations :
  forall (json_loads : string -> option Py.value) (w : World)
         (text : string) (items : list Py.value),
    (2 <= List.length (argv w))%nat ->
    stat w (target w) = Regular text ->
    json_loads text = Some (Py.VList items) ->
    items <> [] ->
    forallb Py.plain_record items = true ->
    exists ss avgs m,
      Py.field_of_each "Name" items = Py.Ok (map Py.VStr ss)
      /\ Py.field_of_each "AvgMs" items = Py.Ok avgs
      /\ Py.max avgs = Py.Ok m
      /\ In m avgs
      /\ (forall v, In v avgs -> Py.units v <= Py.units m)
      /\ map Mpl.bar_label (Mpl.bars (figure (run json_loads w))) = map Py.VStr ss
      /\ let ts := Mpl.texts (figure (run json_loads w)) in
         List.length ts = List.length items
         /\ (forall i d, (i < List.length items)%nat ->
               let v := nth i avgs Py.VNone in
               nth i ts d
               = Mpl.mkText
                   (Py.VFloat (SFadd Py.prec Py.emax (Py.float_value v)
                                 (SFmul Py.prec Py.emax (Py.float_value m)
                                        Py.one_percent)))
                   i (Py.format_float_0f (Py.float_value v) ++ " ms") "center"
               /\ Py.format_0f v = Py.Ok (Py.format_float_0f (Py.float_value v))
               /\ Py.integer_text (Py.format_float_0f (Py.float_value v)) = true)
         /\ (NoDup ss ->
             forall i d d', (i < List.length items)%nat ->
               nth i (Mpl.rows ss) d = i
               /\ Mpl.text_y (nth i ts d') = nth i (Mpl.rows ss) d)
         /\ Py.format_0f (Py.VInt 123) = Py.Ok "123".
Proof.
  intros json_loads w text items Hlen Hstat Hload Hne Hplain.
  destruct (OrderFacts.plain_records_ok items Hplain) as [Hrec Hfin].
  destruct (records_extract items Hrec) as (names & avgs & Hn & Ha & Hln & Hla & _).
  destruct (OrderFacts.plain_series items names avgs Hplain Hn Ha) as [[ss Hss] Hpl].
  subst names.
  assert (Hall : Forall (fun v => Py.finite_number v = true) avgs).
  { eapply Forall_impl; [|exact Hpl]. exact OrderFacts.plain_is_finite. }
  assert (Havgs : avgs <> []).
  { intros ->. destruct items; [congruence | discriminate]. }
  destruct (OrderFacts.max_greatest avgs Havgs Hpl) as (m & Hmax & Hin & Hgreat).
  assert (Hm : Py.finite_number m = true).
  { rewrite Forall_forall in Hall. now apply Hall. }
  destruct (run_bars json_loads w text (Py.VList items) (map Py.VStr ss) avgs
              (has_arg w Hlen) Hstat Hload Hn Ha) as [Hbars Hts].
  assert (Htexts : Mpl.texts (figure (run json_loads w))
                   = map_enumerate (label_at m) 0 avgs).
  { rewrite Hts, (annotations_finite avgs m avgs Hmax Hm Hall). reflexivity. }
  assert (Hss : List.length ss = List.length items)
    by (rewrite <- Hln; symmetry; apply length_map).
  exists ss, avgs, m.
  split; [exact Hn|]. split; [exact Ha|]. split; [exact Hmax|]. split; [exact Hin|].
  split; [exact Hgreat|]. split.
  { rewrite Hbars. apply make_bars_labels. congruence. }
  cbv zeta. rewrite Htexts. split; [|split; [|split]].
  - rewrite map_enumerate_length. exact Hla.
  - intros i d Hi. split; [|split].
    + rewrite (map_enumerate_nth _ _ Py.VNone) by lia. reflexivity.
    + apply PyFacts.format_finite. rewrite Forall_forall in Hall.
      apply Hall, nth_In. lia.
    + assert (Hv : Py.finite_number (nth i avgs Py.VNone) = true).
      { rewrite Forall_forall in Hall. apply Hall, nth_In. lia. }
      destruct (PyFacts.finite_float _ Hv) as (n & _ & _ & Hf).
      now apply PyFacts.format_float_integer.
  - intros Hnd i d d' Hi.
    destruct (RowFacts.rows_distinct ss Hnd) as [_ Hrow].
    rewrite (Hrow i d) by lia. split; [reflexivity|].
    rewrite (map_enumerate_nth _ _ Py.VNone) by lia. reflexivity.
  - reflexivity.
Qed.

Lemma C6_annotations_witness :
  exists ss avgs m,
    Py.field_of_each "Name" [rec2 "A" (Py.VInt 10); rec2 "B" (Py.VInt 20)]
    = Py.Ok (map Py.VStr ss)
    /\ Py.field_of_each "AvgMs" [rec2 "A" (Py.VInt 10); rec2 "B" (Py.VInt 20)]
       = Py.Ok avgs
    /\ Py.max avgs = Py.Ok m
    /\ In m avgs
    /\ (forall v, In v avgs -> Py.units v <= Py.units m).
Proof.
  destruct (C6_annotations sample_loads (world_with "x/baseline.json" two_records_text)
              two_records_text [rec2 "A" (Py.VInt 10); rec2 "B" (Py.VInt 20)])
    as (ss & avgs & m & Hn & Ha & Hm & Hin & Hgreat & _);
    [cbn; lia | reflexivity | reflexivity | discriminate | vm_compute; reflexivity |].
  exists ss, avgs, m. repeat split; assumption.
Defined.



(** C8, as stated, fails: the object [{}] is valid JSON and not an array
    of objects, and the run on it ends like the run on [[]], with a chart
    written and exit code 0. *)
Lemma C8_counterexample :
  sample_loads "{}" = Some (Py.VDict [])
  /\ Py.array_of_records (Py.VDict []) = false
  /\ run sample_loads (world_with "x/baseline.json" "{}")
     = mkOutcome 0 None ["Wrote x/plot-baseline.png"]
                 [(Pathlib.Path "x/plot-baseline.png", chart [] [] [] true)]
                 (chart [] [] [] true).
Proof. repeat split. Qed.

(** C8, amended. When the text is not JSON, or decodes to something that
    is neither an array of objects with both fields nor one of the two
    empty containers [{}] and [""], the run stops with an uncaught
    [JSONDecodeError], [TypeError] or [KeyError] of the missing field:
    exit status 1, nothing printed, nothing written, nothing drawn. The
    two empty containers are taken for an empty array. *)
Theorem C8_malformed_input_fails :
  forall (json_loads : string -> option Py.value) (w : World) (text : string),
    (2 <= List.length (argv w))%nat ->
    stat w (target w) = Regular text ->
    (json_loads text = None
     \/ exists data, json_loads text = Some data
                     /\ Py.array_of_records data = false
                     /\ Py.empty_non_array data = false) ->
    (exists e, run json_loads w = failed e Mpl.blank
               /\ (e = Py.JSONDecodeError \/ e = Py.TypeError
                   \/ e = Py.KeyError "Name" \/ e = Py.KeyError "AvgMs"))
    /\ exit_code (run json_loads w) = 1
    /\ (forall data, Py.empty_non_array data = true ->
          Py.bind (Py.iter data) (Py.field_of_each "Name") = Py.Ok []
          /\ Py.bind (Py.iter data) (Py.field_of_each "AvgMs") = Py.Ok []).
Proof.
  intros json_loads w text Hlen Hstat Hbad.
  assert (Hrun : exists e, run json_loads w = failed e Mpl.blank
               /\ (e = Py.JSONDecodeError \/ e = Py.TypeError
                   \/ e = Py.KeyError "Name" \/ e = Py.KeyError "AvgMs")).
  { destruct Hbad as [Hnone | (data & Hsome & Harr & Hemp)].
    - exists Py.JSONDecodeError. split; [|now left].
      apply (run_extract_fails json_loads w text); [now apply has_arg | assumption|].
      now rewrite Hnone.
    - destruct (PyFacts.extraction_fails data Harr Hemp) as (e & He & Hex).
      exists e. split; [|tauto].
      apply (run_extract_fails json_loads w text); [now apply has_arg | assumption|].
      now rewrite Hsome. }
  split; [exact Hrun|]. split.
  - destruct Hrun as (e & -> & _). reflexivity.
  - intros [| | | |[|c s]| |[|kv d]]; cbn; intros H; try discriminate; now split.
Qed.

Lemma C8_malformed_input_fails_witness :
  run sample_loads (world_with "x/baseline.json" "not json")
  = failed Py.JSONDecodeError Mpl.blank
  /\ run sample_loads (world_with "x/baseline.json" no_avg_text)
     = failed (Py.KeyError "AvgMs") Mpl.blank
  /\ exit_code (run sample_loads (world_with "x/baseline.json" no_avg_text)) = 1.
Proof.
  split; [reflexivity|]. split; [reflexivity|].
  apply (C8_malformed_input_fails sample_loads
           (world_with "x/baseline.json" no_avg_text) no_avg_text);
    [cbn; lia | reflexivity |].
  right. exists (Py.VList [Py.VDict [("Name", Py.VStr "A")]]).
  repeat split.
Defined.

(** C9. A run that has written its image ends by printing ['Wrote '
    followed by the output path] -- its only line of output -- and
    terminates with exit code 0; the image is the one file written, at
    the output path. *)
Theorem C9_wrote :
  forall (json_loads : string -> option Py.value) (w : World),
    written (run json_loads w) <> [] ->
    printed (run json_loads w) = ["Wrote " ++ Pathlib.str (out_path (target w))]
    /\ exit_code (run json_loads w) = 0
    /\ uncaught (run json_loads w) = None
    /\ written (run json_loads w) = [(out_path (target w), figure (run json_loads w))].
Proof.
  intros json_loads w Hw.
  destruct (run_cases json_loads w)
    as [H | [H | [(e & H & _) | [(n & a & ts & e & H & _) | [(n & a & ts & H) | (n & a & ts & H)]]]]];
    rewrite H in Hw |- *; cbn in Hw |- *; try congruence.
  repeat split.
Qed.

Lemma C9_wrote_witness :
  printed (run sample_loads (world_with "x/baseline.json" two_records_text))
  = ["Wrote x/plot-baseline.png"]
  /\ exit_code (run sample_loads (world_with "x/baseline.json" two_records_text)) = 0.
Proof.
  destruct (C9_wrote sample_loads (world_with "x/baseline.json" two_records_text))
    as (Hp & He & _); [discriminate|].
  split; [exact Hp | exact He].
Defined.

(** C10. When the path argument names a directory, the existence test
    passes: no 'File not found' line is printed and the exit code is not
    2. [read_text] raises [IsADirectoryError], nothing catches it, and
    the process ends with status 1 having printed and written nothing. *)
Theorem C10_directory :
  forall (json_loads : string -> option Py.value) (w : World),
    (2 <= List.length (argv w))%nat ->
    stat w (target w) = Directory ->
    exists_ w (target w) = true
    /\ run json_loads w = failed Py.IsADirectoryError Mpl.blank
    /\ exit_code (run json_loads w) = 1
    /\ exit_code (run json_loads w) <> 2
    /\ printed (run json_loads w) = [].
Proof.
  intros json_loads w Hlen Hstat.
  assert (Hrun : run json_loads w = failed Py.IsADirectoryError Mpl.blank).
  { rewrite run_read_fails; [now rewrite Hstat | now apply has_arg | |];
      rewrite Hstat; discriminate. }
  split; [unfold exists_; now rewrite Hstat|].
  split; [exact Hrun|]. rewrite Hrun. repeat split. discriminate.
Qed.

Lemma C10_directory_witness :
  run sample_loads (world_dir "data")
  = failed Py.IsADirectoryError Mpl.blank.
Proof.
  apply (C10_directory sample_loads (world_dir "data")); [cbn; lia | reflexivity].
Defined.

(* ================================================================= *)
(** * Further properties of the script *)

(** ** The output name *)

Module OutputFacts.
Import PyStr PyStrFacts Pathlib PathlibFacts.

Lemma rfind_none (c : ascii) (s : string) : mem c s = false -> rfind c s = -1.
Proof.
  induction s as [|a s IH]; [reflexivity|].
  cbn [mem rfind]. intros H. apply orb_false_iff in H as [Ha Hs].
  cbv zeta. rewrite (IH Hs), Ha. reflexivity.
Qed.

(** The last occurrence of [c] in [a ++ c :: ext], for [ext] free of
    [c], is right after [a]. *)
Lemma rfind_app_last (c : ascii) (a ext : string) :
  mem c ext = false -> rfind c (a ++ String c ext) = len a.
Proof.
  intros H. induction a as [|x a IH].
  - cbn [append rfind]. cbv zeta. rewrite (rfind_none _ _ H), Ascii.eqb_refl.
    reflexivity.
  - cbn [append rfind]. cbv zeta. rewrite IH, len_cons.
    destruct (0 <=? len a) eqn:E; [reflexivity|].
    apply Z.leb_gt in E. pose proof (len_nonneg a). lia.
Qed.

Lemma take_app (a b : string) : take (String.length a) (a ++ b) = a.
Proof.
  induction a as [|x a IH]; simpl; [now destruct b | now rewrite IH].
Qed.

Lemma drop_app (a b : string) : drop (String.length a) (a ++ b) = b.
Proof. induction a as [|x a IH]; simpl; [reflexivity | exact IH]. Qed.

Lemma len_app (a b : string) : len (a ++ b) = len a + len b.
Proof.
  induction a as [|x a IH]; [unfold len; simpl; lia|].
  cbn [append]. rewrite !len_cons, IH. lia.
Qed.

(** A name [a + '.png'] with [a] non-empty has suffix ['.png'] and
    stem [a]. *)
Lemma png_name (a : string) :
  a <> "" ->
  has_suffix (a ++ ".png") = true
  /\ rfind dot (a ++ ".png") = len a.
Proof.
  intros Ha.
  assert (Hr : rfind dot (a ++ ".png") = len a) by (now apply rfind_app_last).
  split; [|exact Hr].
  unfold has_suffix. cbv zeta. rewrite Hr, len_app.
  change (len ".png") with 4.
  assert (0 < len a).
  { destruct a as [|x a']; [congruence|].
    rewrite len_cons. pose proof (len_nonneg a'). lia. }
  apply andb_true_iff; split; apply Z.ltb_lt; lia.
Qed.

Lemma name_out_path (p : PurePath) : wf p -> name (out_path p) = out_name p.
Proof.
  intros H. unfold out_path.
  rewrite joinpath_part; [|now apply parent_wf | now apply out_name_ok].
  unfold name. cbn [tail]. apply last_last.
Qed.

Lemma parent_out_path (p : PurePath) : wf p -> parent (out_path p) = parent p.
Proof.
  intros H. unfold out_path.
  rewrite joinpath_part; [|now apply parent_wf | now apply out_name_ok].
  unfold parent at 1. cbn [tail root].
  destruct (tail (parent p) ++ [out_name p])%list eqn:E.
  - now destruct (tail (parent p)).
  - rewrite <- E, removelast_last. now destruct (parent p).
Qed.

Lemma out_name_split (p : PurePath) :
  out_name p = ("plot-" ++ stem p) ++ ".png".
Proof. unfold out_name. now rewrite append_assoc. Qed.

Lemma stem_out_path (p : PurePath) :
  wf p -> stem (out_path p) = "plot-" ++ stem p /\ suffix (out_path p) = ".png".
Proof.
  intros H. unfold stem, suffix. cbv zeta.
  rewrite (name_out_path p H), out_name_split.
  destruct (png_name ("plot-" ++ stem p)) as [Hs Hr]; [discriminate|].
  rewrite Hs, Hr. unfold len. rewrite Nat2Z.id.
  split; [apply take_app | apply drop_app].
Qed.

End OutputFacts.

(** X1. The image is a sibling of the input: same parent directory,
    name ['plot-' + stem + '.png'], suffix ['.png'], stem
    ['plot-' + stem]. It is never the input path itself, so the script
    never writes over the file it reads. *)
Theorem X1_output_is_a_png_sibling :
  forall s : string,
    let p := Pathlib.Path s in
    Pathlib.parent (out_path p) = Pathlib.parent p
    /\ Pathlib.name (out_path p) = "plot-" ++ Pathlib.stem p ++ ".png"
    /\ Pathlib.suffix (out_path p) = ".png"
    /\ Pathlib.stem (out_path p) = "plot-" ++ Pathlib.stem p
    /\ out_path p <> p.
Proof.
  intros s p.
  assert (Hwf : Pathlib.wf p) by apply PathlibFacts.parse_path_wf.
  destruct (OutputFacts.stem_out_path p Hwf) as [Hstem Hsuf].
  repeat split; try assumption.
  - now apply OutputFacts.parent_out_path.
  - now apply OutputFacts.name_out_path.
  - intros Heq. rewrite Heq in Hstem.
    apply (f_equal String.length) in Hstem. simpl in Hstem. lia.
Qed.

(** ** Exit codes and outputs *)

Section OutcomeFacts.

Variable json_loads : string -> option Py.value.
Variable w : World.

Let p := target w.

(** A comprehension returns as many values as the document has items. *)
Lemma comprehension_length (k : string) (data : Py.value) (vs : list Py.value) :
  Py.bind (Py.iter data) (Py.field_of_each k) = Py.Ok vs ->
  exists items, Py.iter data = Py.Ok items /\ List.length vs = List.length items.
Proof.
  destruct (Py.iter data) as [items|e]; cbn [Py.bind]; [|discriminate].
  intros H. exists items. split; [reflexivity|].
  now destruct (field_of_each_spec k items vs H).
Qed.

(** Past the two checks of lines 6-13 a run either stops before
    drawing, or goes through the plotting part on the two series. *)
Lemma run_past_checks :
  (Z.of_nat (List.length (argv w)) <? 2) = false ->
  stat w p <> Absent ->
  (exists e, run json_loads w = failed e Mpl.blank)
  \/ (exists names avgs,
        List.length names = List.length avgs
        /\ run json_loads w
           = match snd (annotations avgs 0 avgs) with
             | Some e => failed e (chart names avgs (fst (annotations avgs 0 avgs)) false)
             | None =>
                 if writable w (out_path p)
                 then mkOutcome 0 None ["Wrote " ++ Pathlib.str (out_path p)]
                        [(out_path p,
                          chart names avgs (fst (annotations avgs 0 avgs)) true)]
                        (chart names avgs (fst (annotations avgs 0 avgs)) true)
                 else failed Py.OSError
                        (chart names avgs (fst (annotations avgs 0 avgs)) true)
             end).
Proof.
  intros Hlen Hstat.
  destruct (stat w p) as [| | | |text] eqn:E; [congruence| | | |].
  1-3: left; eexists; apply run_read_fails; fold p; try assumption;
    rewrite E; discriminate.
  destruct (json_loads text) as [data|] eqn:Hload.
  2:{ left. exists Py.JSONDecodeError.
      apply (run_extract_fails json_loads w text); try assumption.
      now rewrite Hload. }
  destruct (Py.bind (Py.iter data) (Py.field_of_each "Name")) as [names|e] eqn:Hn.
  2:{ left. exists e. apply (run_extract_fails json_loads w text); try assumption.
      now rewrite Hload, Hn. }
  destruct (Py.bind (Py.iter data) (Py.field_of_each "AvgMs")) as [avgs|e] eqn:Ha.
  2:{ left. exists e. apply (run_extract_fails json_loads w text); try assumption.
      now rewrite Hload, Hn. }
  right. exists names, avgs. split.
  - destruct (comprehension_length _ _ _ Hn) as (items & Hi & Hln).
    destruct (comprehension_length _ _ _ Ha) as (items' & Hi' & Hla).
    congruence.
  - apply (run_plot json_loads w text data names avgs Hlen E Hload Hn Ha).
Qed.

Lemma exit_code_past_checks :
  (Z.of_nat (List.length (argv w)) <? 2) = false ->
  stat w p <> Absent ->
  exit_code (run json_loads w) <> 2.
Proof.
  intros Hlen Hstat.
  destruct (run_past_checks Hlen Hstat) as [(e & ->) | (names & avgs & _ & ->)].
  - discriminate.
  - destruct (snd (annotations avgs 0 avgs)); [discriminate|].
    destruct (writable w (out_path p)); discriminate.
Qed.

End OutcomeFacts.

(** X2. The exit code is 0, 1 or 2. It is 2 exactly when the argument
    is missing or names nothing that exists; 0 exactly when an image was
    written; 1 exactly when an exception went uncaught. *)
Theorem X2_exit_codes :
  forall (json_loads : string -> option Py.value) (w : World),
    let o := run json_loads w in
    (exit_code o = 0 \/ exit_code o = 1 \/ exit_code o = 2)
    /\ (exit_code o = 2 <->
        (List.length (argv w) < 2)%nat \/ stat w (target w) = Absent)
    /\ (exit_code o = 0 <-> written o <> [])
    /\ (exit_code o = 1 <-> uncaught o <> None).
Proof.
  intros json_loads w o. subst o.
  split; [|split; [|split]].
  - destruct (run_cases json_loads w)
      as [H | [H | [(e & H & _) | [(n & a & ts & e & H & _) | [(n & a & ts & H) | (n & a & ts & H)]]]]];
      rewrite H; cbn; auto.
  - split.
    + intros H2.
      destruct (Z.of_nat (List.length (argv w)) <? 2) eqn:Hlen.
      * left. apply Z.ltb_lt in Hlen. lia.
      * right. destruct (stat w (target w)) eqn:E; try reflexivity;
          exfalso; apply (exit_code_past_checks json_loads w Hlen); trivial;
          rewrite E; discriminate.
    + intros [Hlen | Habs].
      * rewrite run_usage; [reflexivity | now apply no_arg].
      * destruct (Z.of_nat (List.length (argv w)) <? 2) eqn:Hlen.
        -- now rewrite run_usage.
        -- now rewrite (run_not_found json_loads w Hlen Habs).
  - destruct (run_cases json_loads w)
      as [H | [H | [(e & H & _) | [(n & a & ts & e & H & _) | [(n & a & ts & H) | (n & a & ts & H)]]]]];
      rewrite H; cbn; split; intros Hx; try discriminate; try congruence.
  - destruct (run_cases json_loads w)
      as [H | [H | [(e & H & _) | [(n & a & ts & e & H & _) | [(n & a & ts & H) | (n & a & ts & H)]]]]];
      rewrite H; cbn; split; intros Hx; try discriminate; try congruence.
Qed.

(** X3. A run ended by an uncaught exception has printed nothing on
    stdout and written no file; its exit status is 1. *)
Theorem X3_failure_leaves_no_output :
  forall (json_loads : string -> option Py.value) (w : World) (e : Py.exn),
    uncaught (run json_loads w) = Some e ->
    printed (run json_loads w) = []
    /\ written (run json_loads w) = []
    /\ exit_code (run json_loads w) = 1.
Proof.
  intros json_loads w e He.
  destruct (run_cases json_loads w)
    as [H | [H | [(e' & H & _) | [(n & a & ts & e' & H & _) | [(n & a & ts & H) | (n & a & ts & H)]]]]];
    rewrite H in He |- *; cbn in He |- *; try discriminate; repeat split.
Qed.

Lemma X3_failure_leaves_no_output_witness :
  printed (run sample_loads (world_with "x/baseline.json" no_avg_text)) = []
  /\ written (run sample_loads (world_with "x/baseline.json" no_avg_text)) = []
  /\ exit_code (run sample_loads (world_with "x/baseline.json" no_avg_text)) = 1.
Proof.
  apply (X3_failure_leaves_no_output sample_loads
           (world_with "x/baseline.json" no_avg_text) (Py.KeyError "AvgMs")).
  reflexivity.
Defined.

(** ** Which field is missed first *)

Lemma field_of_each_key_error (k : string) (items : list Py.value) :
  forallb Py.is_dict items = true ->
  forallb (Py.has_key k) items = false ->
  Py.field_of_each k items = Py.Raise (Py.KeyError k).
Proof.
  induction items as [|d items IH]; cbn [forallb]; intros Hd Hk; [discriminate|].
  apply andb_true_iff in Hd as [Hd Hrest].
  destruct d; try discriminate. cbn [Py.field_of_each Py.getitem Py.has_key] in *.
  destruct (Py.lookup k d) as [v|]; [|reflexivity].
  cbn [andb Py.bind] in *. now rewrite (IH Hrest Hk).
Qed.

(** X4. On an array of objects of which one lacks a field, the names
    are read from all records before any average: the run stops with
    [KeyError('Name')] if any record lacks [Name], wherever it stands, and
    with [KeyError('AvgMs')] only if every record has a [Name]. Nothing is
    drawn, printed or written. *)
Theorem X4_missing_field_precedence :
  forall (json_loads : string -> option Py.value) (w : World)
         (text : string) (items : list Py.value),
    (2 <= List.length (argv w))%nat ->
    stat w (target w) = Regular text ->
    json_loads text = Some (Py.VList items) ->
    forallb Py.is_dict items = true ->
    forallb Py.record_ok items = false ->
    run json_loads w
    = failed (Py.KeyError (if forallb (Py.has_key "Name") items
                           then "AvgMs" else "Name"))
             Mpl.blank.
Proof.
  intros json_loads w text items Hlen Hstat Hload Hd Hrec.
  apply (run_extract_fails json_loads w text); [now apply has_arg | assumption|].
  rewrite Hload. cbn [Py.iter Py.bind].
  rewrite PyFacts.forallb_record_ok in Hrec.
  destruct (forallb (Py.has_key "Name") items) eqn:HN.
  - destruct (PyFacts.field_of_each_ok "Name" items HN) as (names & -> & _).
    cbn [andb] in Hrec. now apply field_of_each_key_error.
  - now rewrite (field_of_each_key_error "Name" items Hd HN).
Qed.

Lemma X4_missing_field_precedence_witness :
  run sample_loads (world_with "x/baseline.json" no_avg_text)
  = failed (Py.KeyError "AvgMs") Mpl.blank.
Proof.
  apply (X4_missing_field_precedence sample_loads
           (world_with "x/baseline.json" no_avg_text) no_avg_text
           [Py.VDict [("Name", Py.VStr "A")]]);
    [cbn; lia | reflexivity | reflexivity | reflexivity | reflexivity].
Defined.

(** ** Every image written *)

Lemma annotation_shape (avgs : list Py.value) (i : nat) (v : Py.value) (t : Mpl.Text) :
  annotation avgs i v = Py.Ok t ->
  Mpl.text_y t = i /\ Mpl.text_va t = "center"
  /\ exists s, Py.format_0f v = Py.Ok s /\ Mpl.text_s t = s ++ " ms".
Proof.
  unfold annotation.
  destruct (Py.max avgs) as [m|]; cbn [Py.bind]; [|discriminate].
  destruct (Py.mul m (Py.VFloat Py.one_percent)) as [off|]; cbn [Py.bind]; [|discriminate].
  destruct (Py.add v off) as [x|]; cbn [Py.bind]; [|discriminate].
  destruct (Py.format_0f v) as [s|]; cbn [Py.bind]; [|discriminate].
  intros H. inversion H; subst. cbn. eauto.
Qed.

Lemma annotations_shape (avgs l : list Py.value) :
  forall i ts,
    annotations avgs i l = (ts, None) ->
    List.length ts = List.length l
    /\ forall k d, (k < List.length l)%nat ->
         Mpl.text_y (nth k ts d) = (i + k)%nat
         /\ Mpl.text_va (nth k ts d) = "center"
         /\ exists s, Py.format_0f (nth k l Py.VNone) = Py.Ok s
                      /\ Mpl.text_s (nth k ts d) = s ++ " ms".
Proof.
  induction l as [|v l IH]; intros i ts; cbn [annotations].
  - intros H. inversion H; subst. split; [reflexivity|]. intros k d Hk. inversion Hk.
  - destruct (annotation avgs i v) as [t|e] eqn:Ht; [|discriminate].
    destruct (annotations avgs (S i) l) as [ts' r] eqn:Hrest.
    intros H. inversion H; subst.
    destruct (IH (S i) ts' Hrest) as [Hlen Hnth].
    split; [simpl; now rewrite Hlen|].
    intros [|k] d Hk.
    + rewrite Nat.add_0_r. cbn [nth]. now apply annotation_shape with (avgs := avgs).
    + cbn [nth]. rewrite Nat.add_succ_r. apply Hnth. simpl in Hk. lia.
Qed.

(** X5. Every image the script writes is complete: ggplot style, 8 by
    4, axis label and title set, tight layout applied, and as many
    annotations as bars, bar [i] standing at index [i] and its annotation
    at y = [i], centered, reading some text followed by [' ms']. *)
Theorem X5_written_image_complete :
  forall (json_loads : string -> option Py.value) (w : World)
         (o : Pathlib.PurePath) (g : Mpl.Figure),
    In (o, g) (written (run json_loads w)) ->
    Mpl.style g = "ggplot"
    /\ Mpl.figsize g = (8, 4)
    /\ Mpl.xlabel g = "Average elapsed (ms)"
    /\ Mpl.title g = "Performance baseline — Avg elapsed per scenario"
    /\ Mpl.tight g = true
    /\ List.length (Mpl.texts g) = List.length (Mpl.bars g)
    /\ forall i db dt, (i < List.length (Mpl.bars g))%nat ->
         Mpl.bar_index (nth i (Mpl.bars g) db) = i
         /\ Mpl.text_y (nth i (Mpl.texts g) dt) = i
         /\ Mpl.text_va (nth i (Mpl.texts g) dt) = "center"
         /\ exists s, Mpl.text_s (nth i (Mpl.texts g) dt) = s ++ " ms".
Proof.
  intros json_loads w o g Hin.
  destruct (Z.of_nat (List.length (argv w)) <? 2) eqn:Hlen.
  { rewrite (run_usage json_loads w Hlen) in Hin. contradiction. }
  destruct (stat w (target w)) eqn:Hstat.
  { rewrite (run_not_found json_loads w Hlen Hstat) in Hin. contradiction. }
  all: destruct (run_past_checks json_loads w Hlen) as [(e & H) | (names & avgs & Hsame & H)];
    [rewrite Hstat; discriminate
    | rewrite H in Hin; contradiction
    | ].
  all: rewrite H in Hin; clear H;
    destruct (annotations avgs 0 avgs) as [ts [e|]] eqn:Han; cbn [fst snd] in Hin;
    [contradiction|];
    destruct (writable w (out_path (target w))); [|contradiction];
    destruct Hin as [Hin | []]; inversion Hin; subst; clear Hin;
    destruct (annotations_shape avgs avgs 0%nat ts Han) as [Hlts Hnth];
    cbn [chart Mpl.style Mpl.figsize Mpl.xlabel Mpl.title Mpl.tight Mpl.texts Mpl.bars];
    rewrite (make_bars_length _ _ _ Hsame);
    (repeat split; try congruence);
    try (rewrite make_bars_nth by (try assumption; lia); reflexivity);
    destruct (Hnth i dt) as (Hy & Hva & s & _ & Hs); try congruence; eauto.
Qed.

Lemma X5_written_image_complete_witness :
  List.length (Mpl.texts (chart [Py.VStr "A"; Py.VStr "B"] [Py.VInt 10; Py.VInt 20]
                                [label_at (Py.VInt 20) 0 (Py.VInt 10);
                                 label_at (Py.VInt 20) 1 (Py.VInt 20)] true))
  = List.length (Mpl.bars (chart [Py.VStr "A"; Py.VStr "B"] [Py.VInt 10; Py.VInt 20]
                                 [label_at (Py.VInt 20) 0 (Py.VInt 10);
                                  label_at (Py.VInt 20) 1 (Py.VInt 20)] true)).
Proof.
  apply (X5_written_image_complete sample_loads
           (world_with "x/baseline.json" two_records_text)
           (Pathlib.Path "x/plot-baseline.png")).
  vm_compute. left. reflexivity.
Defined.

(** ** An average that is not a number *)

Lemma max_from_not_number (l : list Py.value) :
  forall cur,
    Exists (fun v => Py.is_number v = false) (cur :: l) ->
    Py.max_from cur l = Py.Raise Py.TypeError
    \/ exists m, Py.max_from cur l = Py.Ok m /\ Py.is_number m = false.
Proof.
  induction l as [|item rest IH]; intros cur Hex.
  - right. exists cur. split; [reflexivity|].
    inversion Hex as [? ? H | ? ? H]; subst; [assumption | inversion H].
  - cbn [Py.max_from]. unfold Py.gt.
    destruct (Py.num_of item) as [ni|] eqn:Hi; [|now left].
    destruct (Py.num_of cur) as [nc|] eqn:Hc; [|now left].
    cbn [Py.bind]. apply IH.
    inversion Hex as [? ? H | ? ? H]; subst.
    { unfold Py.is_number in H. now rewrite Hc in H. }
    inversion H as [? ? H' | ? ? H']; subst.
    { unfold Py.is_number in H'. now rewrite Hi in H'. }
    now apply Exists_cons_tl.
Qed.

(** With an item that is not a number among the averages, the first
    round of the loop raises [TypeError]. *)
Lemma annotations_not_number (avgs : list Py.value) :
  Exists (fun v => Py.is_number v = false) avgs ->
  annotations avgs 0 avgs = ([], Some Py.TypeError).
Proof.
  intros Hex. destruct avgs as [|v rest]; [inversion Hex|].
  cbn [annotations]. unfold annotation. cbn [Py.max].
  destruct (max_from_not_number rest v Hex) as [-> | (m & -> & Hm)]; [reflexivity|].
  cbn [Py.bind]. unfold Py.mul, Py.is_number in *.
  destruct (Py.num_of m); [discriminate | reflexivity].
Qed.

Lemma odd_avg_exists (items : list Py.value) :
  forall avgs,
    Py.field_of_each "AvgMs" items = Py.Ok avgs ->
    existsb Py.odd_avg items = true ->
    Exists (fun v => Py.is_number v = false) avgs.
Proof.
  induction items as [|d items IH]; cbn [existsb Py.field_of_each]; intros avgs H Hex;
    [discriminate|].
  unfold Py.odd_avg in Hex at 1.
  destruct (Py.getitem d "AvgMs") as [v|]; cbn [Py.bind] in H; [|discriminate].
  destruct (Py.field_of_each "AvgMs" items) as [vs|]; cbn [Py.bind] in H; [|discriminate].
  inversion H; subst.
  destruct (Py.is_number v) eqn:Hv.
  - apply Exists_cons_tl. apply IH; [reflexivity | exact Hex].
  - now apply Exists_cons_hd.
Qed.

(** X6. When some record's [AvgMs] is present and not a number (null,
    a string, an array, an object), no image is produced: the run ends
    with an uncaught exception and exit status 1, having printed nothing,
    written nothing and added no annotation. *)
Theorem X6_non_numeric_average :
  forall (json_loads : string -> option Py.value) (w : World)
         (text : string) (items : list Py.value),
    (2 <= List.length (argv w))%nat ->
    stat w (target w) = Regular text ->
    json_loads text = Some (Py.VList items) ->
    forallb Py.record_ok items = true ->
    existsb Py.odd_avg items = true ->
    (exists e, uncaught (run json_loads w) = Some e)
    /\ exit_code (run json_loads w) = 1
    /\ printed (run json_loads w) = []
    /\ written (run json_loads w) = []
    /\ Mpl.texts (figure (run json_loads w)) = [].
Proof.
  intros json_loads w text items Hlen Hstat Hload Hrec Hodd.
  destruct (records_extract items Hrec) as (names & avgs & Hn & Ha & Hln & Hla & _).
  pose proof (annotations_not_number avgs (odd_avg_exists items avgs Ha Hodd)) as Han.
  rewrite (run_plot json_loads w text (Py.VList items) names avgs
             (has_arg w Hlen) Hstat Hload Hn Ha).
  cbv zeta. rewrite Han.
  cbn [fst snd failed uncaught exit_code printed written figure chart Mpl.texts].
  repeat split. eauto.
Qed.

Lemma X6_non_numeric_average_witness :
  exit_code (run null_loads (world_with "x/baseline.json" null_avg_text)) = 1
  /\ written (run null_loads (world_with "x/baseline.json" null_avg_text)) = [].
Proof.
  destruct (X6_non_numeric_average null_loads
              (world_with "x/baseline.json" null_avg_text) null_avg_text
              [rec2 "A" Py.VNone])
    as (_ & He & _ & Hw & _);
    [cbn; lia | reflexivity | reflexivity | reflexivity | reflexivity |].
  split; assumption.
Defined.

(** ** Colors of neighbouring bars *)

Lemma palette_nth_inj (i j : nat) :
  (i < 4)%nat -> (j < 4)%nat ->
  nth i palette "none" = nth j palette "none" -> i = j.
Proof.
  intros Hi Hj.
  do 4 (destruct i as [|i]; [do 4 (destruct j as [|j]; [cbn; congruence|]); lia|]).
  lia.
Qed.

(** X7. For records with string names and plain numbers: with at
    most four records all bars have different colors; with more, the
    color of bar [i + 4] is that of bar [i], and two bars share a color
    only if their indices differ by a multiple of 4. *)
Theorem X7_colors_repeat_every_four :
  forall (json_loads : string -> option Py.value) (w : World)
         (text : string) (items : list Py.value),
    (2 <= List.length (argv w))%nat ->
    stat w (target w) = Regular text ->
    json_loads text = Some (Py.VList items) ->
    forallb Py.plain_record items = true ->
    let color i := Mpl.bar_color
                     (nth i (Mpl.bars (figure (run json_loads w)))
                          (Mpl.mkBar 0 Py.VNone Py.VNone "")) in
    (forall i, (i + 4 < List.length items)%nat -> color (i + 4)%nat = color i)
    /\ (forall i j, (i < List.length items)%nat -> (j < List.length items)%nat ->
          color i = color j -> Nat.modulo i 4 = Nat.modulo j 4)
    /\ ((List.length items <= 4)%nat ->
        forall i j, (i < List.length items)%nat -> (j < List.length items)%nat ->
                    color i = color j -> i = j).
Proof.
  intros json_loads w text items Hlen Hstat Hload Hplain color.
  destruct (OrderFacts.plain_records_ok items Hplain) as [Hrec _].
  destruct (records_extract items Hrec) as (names & avgs & Hn & Ha & Hln & Hla & _).
  destruct (run_bars json_loads w text (Py.VList items) names avgs
              (has_arg w Hlen) Hstat Hload Hn Ha) as [Hbars _].
  assert (Hsame : List.length names = List.length avgs) by congruence.
  assert (Hcol : forall i, (i < List.length items)%nat ->
                           color i = nth (Nat.modulo i 4) palette "none").
  { intros i Hi. subst color. cbv beta. rewrite Hbars.
    rewrite make_bars_nth by (try assumption; lia).
    cbn [Mpl.bar_color Nat.add]. apply sliced_palette_cycle. lia. }
  assert (Hmod : forall i, (Nat.modulo i 4 < 4)%nat)
    by (intros i; apply Nat.mod_upper_bound; discriminate).
  split; [|split].
  - intros i Hi. rewrite !Hcol by lia. f_equal.
    replace (i + 4)%nat with (i + 1 * 4)%nat by lia.
    apply Nat.Div0.mod_add.
  - intros i j Hi Hj Hc. rewrite !Hcol in Hc by assumption.
    now apply palette_nth_inj.
  - intros Hfew i j Hi Hj Hc. rewrite !Hcol in Hc by assumption.
    apply palette_nth_inj in Hc; try apply Hmod.
    rewrite !Nat.mod_small in Hc by lia. exact Hc.
Qed.

(** Six records: the fifth and sixth bars repeat the colors of the
    first and second. *)
Lemma X7_colors_repeat_every_four_witness :
  let color i := Mpl.bar_color
                   (nth i (Mpl.bars (figure (run six_loads
                                  (world_with "x/baseline.json" six_records_text))))
                        (Mpl.mkBar 0 Py.VNone Py.VNone "")) in
  color 4%nat = color 0%nat /\ color 5%nat = color 1%nat
  /\ color 4%nat = "#2b8cbe" /\ color 5%nat = "#7bccc4".
Proof.
  destruct (X7_colors_repeat_every_four six_loads
              (world_with "x/baseline.json" six_records_text)
              six_records_text six_records)
    as (Hper & _ & _);
    [cbn; lia | reflexivity | reflexivity | vm_compute; reflexivity |].
  cbv zeta. split; [|split; [|split]].
  - apply (Hper 0%nat). cbn. lia.
  - apply (Hper 1%nat). cbn. lia.
  - reflexivity.
  - reflexivity.
Defined.

(** ** Rounding of the label *)

(** X8. The label of a finite float with a fractional part is its
    sign followed by the digits of an integer [n] nearest to the value
    [m / 2^k]: at most one half away, and even when the value lies
    exactly half way. A float without fractional part is printed in
    full. The label is rounded, never truncated. *)
Theorem X8_label_rounds_to_nearest :
  forall (s : bool) (m : positive) (e : Z),
    (e < 0 ->
     exists n,
       Py.format_float_0f (S754_finite s m e) = Py.signed s (Py.digits n)
       /\ 0 <= n
       /\ 2 * Z.abs (n * 2 ^ (- e) - Zpos m) <= 2 ^ (- e)
       /\ (2 * (Zpos m mod 2 ^ (- e)) = 2 ^ (- e) -> Z.even n = true))
    /\ (0 <= e ->
        Py.format_float_0f (S754_finite s m e)
        = Py.signed s (Py.digits (Zpos m * 2 ^ e))).
Proof.
  intros s m e. split.
  - intros He.
    assert (Hd : 0 < 2 ^ (- e)) by (apply Z.pow_pos_nonneg; lia).
    exists (Py.round_half_even (Zpos m) (2 ^ (- e))).
    cbn [Py.format_float_0f].
    destruct (0 <=? e) eqn:E; [apply Z.leb_le in E; lia|].
    split; [reflexivity|]. split; [|split].
    + unfold Py.round_half_even.
      assert (0 <= Zpos m / 2 ^ (- e)) by (apply Z.div_pos; lia).
      destruct (2 * (Zpos m mod 2 ^ (- e)) ?= 2 ^ (- e));
        try destruct (Z.even (Zpos m / 2 ^ (- e))); lia.
    + now apply PyFacts.round_half_even_nearest.
    + intros Htie. unfold Py.round_half_even. rewrite Htie, Z.compare_refl.
      destruct (Z.even (Zpos m / 2 ^ (- e))) eqn:Hev; [exact Hev|].
      rewrite Z.even_add, Hev. reflexivity.
  - intros He. cbn [Py.format_float_0f].
    destruct (0 <=? e) eqn:E; [reflexivity | apply Z.leb_gt in E; lia].
Qed.

Lemma X8_label_rounds_to_nearest_witness :
  Py.format_float_0f (S754_finite false 5 (-1)) = "2"
  /\ exists n,
      Py.format_float_0f (S754_finite false 5 (-1)) = Py.signed false (Py.digits n)
      /\ 0 <= n
      /\ 2 * Z.abs (n * 2 ^ (- (-1)) - 5) <= 2 ^ (- (-1))
      /\ (2 * (5 mod 2 ^ (- (-1))) = 2 ^ (- (-1)) -> Z.even n = true).
Proof.
  split; [reflexivity|].
  apply (X8_label_rounds_to_nearest false 5 (-1)). lia.
Defined.

(** ** The offset on integer averages *)

Lemma fold_max_bound (zs : list Z) :
  forall z, z <= fold_left Z.max zs z
            /\ (forall y, In y zs -> y <= fold_left Z.max zs z)
            /\ In (fold_left Z.max zs z) (z :: zs).
Proof.
  induction zs as [|x zs IH]; intros z; cbn [fold_left].
  - repeat split; [lia | intros y [] | now left].
  - destruct (IH (Z.max z x)) as (H1 & H2 & H3). repeat split.
    + lia.
    + intros y [-> | Hy]; [lia | now apply H2].
    + destruct H3 as [H3 | H3]; [|now right; right].
      rewrite <- H3. destruct (Z.max_spec z x) as [[_ ->] | [_ ->]];
        [right; now left | now left].
Qed.

(** X9. On averages that are all integers, [max(avgs)], from which the
    offset of every annotation is taken, is one of them and no average
    exceeds it. *)
Theorem X9_max_of_integer_averages :
  forall (z : Z) (zs : list Z),
    exists m,
      Py.max (map Py.VInt (z :: zs)) = Py.Ok (Py.VInt m)
      /\ In m (z :: zs)
      /\ (forall y, In y (z :: zs) -> y <= m)
      /\ forall i v, annotation (map Py.VInt (z :: zs)) i (Py.VInt v)
                     = annotation [Py.VInt m] i (Py.VInt v).
Proof.
  intros z zs. exists (fold_left Z.max zs z).
  destruct (fold_max_bound zs z) as (H1 & H2 & H3).
  pose proof (max_ints z zs) as Hmax.
  repeat split; try assumption.
  - intros y [<- | Hy]; [exact H1 | now apply H2].
  - intros i v. unfold annotation. now rewrite Hmax.
Qed.
